(** * Moderation engine of the group-management bot (src/bot.py)

    A shallow embedding of the moderation paths of [bot.py]: the database
    helpers, the commands [/warn], [/unwarn] and [/ban], the message
    pipeline [handle_all_messages] and the periodic job
    [check_expired_mutes].

    Conventions of the embedding.
    - A [datetime] is an integer number of microseconds ([Z]); a duration
      in seconds is scaled by [1000000] where the code calls
      [total_seconds()].
    - Text is a [string] of 8-bit characters.  [str.lower()] is a
      parameter [lower] of the functions that call it (their names end in
      [_with]); the scenarios and the statements that do not depend on the
      folding take them at [Text.lower], which is [str.lower()] on ASCII
      text.
    - The SQLAlchemy tables are finite maps and lists, and a
      [session.commit()] after an attribute assignment is the write of the
      row; the database itself does not fail.  The [users] table (names,
      reputation, last activity) carries no moderation state and is not
      represented.
    - Every awaited Bot API call may raise: the environment [Env] fixes the
      outcome of each call, and every attempted call is recorded, with its
      outcome, in the world's [calls], the most recent call first.
    - Python control flow ([return], [raise], [try]/[except]) is kept by a
      small monad [M]. *)

From stdpp Require Import base option list strings gmap fin_maps.
From Stdlib Require Import ZArith Ascii String Lia.

Local Open Scope string_scope.
Local Open Scope Z_scope.

(** ** Text *)

Module Text.

(** [str.lower()] on one ASCII character. *)
Definition lower_ascii (c : ascii) : ascii :=
  let n := nat_of_ascii c in
  if (Nat.leb 65 n && Nat.leb n 90)%bool then ascii_of_nat (n + 32) else c.

(** [s.lower()] for ASCII text [s]: the letters A to Z are folded, every
    other character is kept. *)
Fixpoint lower (s : string) : string :=
  match s with
  | EmptyString => EmptyString
  | String c r => String (lower_ascii c) (lower r)
  end.

(** [word in text] *)
Fixpoint contains (word text : string) : bool :=
  String.prefix word text ||
  match text with
  | EmptyString => false
  | String _ r => contains word r
  end.

(** Python truth value of an optional string: [None] and [""] are false. *)
Definition truthy (s : option string) : bool :=
  match s with
  | Some (String _ _) => true
  | _ => false
  end.

End Text.

(** ** Tables (section 1 of bot.py) *)

Record Group := mkGroup {
  anti_flood_enabled : bool;
  anti_flood_limit : Z;
  anti_flood_time : Z;
  mute_on_warn_count : Z;
  ban_on_warn_count : Z;
  lock_photos : bool;
  lock_videos : bool;
  lock_links : bool;
  lock_forwards : bool;
  lock_stickers : bool;
  lock_gifs : bool;
  lock_voice : bool;
  lock_documents : bool;
  lock_videonotes : bool;
  lock_polls : bool;
  lock_games : bool
}.

(** Column defaults of [Group]. *)
Definition new_Group : Group :=
  {| anti_flood_enabled := true; anti_flood_limit := 5; anti_flood_time := 10;
     mute_on_warn_count := 3; ban_on_warn_count := 5;
     lock_photos := false; lock_videos := false; lock_links := false;
     lock_forwards := false; lock_stickers := false; lock_gifs := false;
     lock_voice := false; lock_documents := false; lock_videonotes := false;
     lock_polls := false; lock_games := false |}.

(** A row of [group_users] without its columns [group_id] and [user_id]:
    the table is a map from that pair to the rest of the row. *)
Record GroupUser := mkGroupUser {
  warns : Z;
  is_muted : bool;
  mute_until : option Z;
  last_message_time : option Z;
  message_count_in_interval : Z
}.

(** [GroupUser(group_id=..., user_id=...)] with the column defaults. *)
Definition new_GroupUser : GroupUser :=
  {| warns := 0; is_muted := false;
     mute_until := None; last_message_time := None;
     message_count_in_interval := 0 |}.

Definition set_warns (w : Z) (r : GroupUser) : GroupUser :=
  {| warns := w;
     is_muted := is_muted r; mute_until := mute_until r;
     last_message_time := last_message_time r;
     message_count_in_interval := message_count_in_interval r |}.

Definition set_mute (m : bool) (until : option Z) (r : GroupUser) : GroupUser :=
  {| warns := warns r; is_muted := m; mute_until := until;
     last_message_time := last_message_time r;
     message_count_in_interval := message_count_in_interval r |}.

Definition set_flood (t : option Z) (n : Z) (r : GroupUser) : GroupUser :=
  {| warns := warns r; is_muted := is_muted r; mute_until := mute_until r;
     last_message_time := t; message_count_in_interval := n |}.

Record ForbiddenWord := mkForbiddenWord { fw_group_id : Z; word : string }.

(** The formatted [reason] of an [AdminLog] row: the fixed text and the
    value interpolated into it. *)
Inductive Reason :=
| NoReason
| ReasonText (s : string)
| ReasonReached (n : Z) (what : string)
| ReasonWord (w : string).

Record AdminLog := mkAdminLog {
  log_group_id : Z;
  log_admin_id : Z;
  log_target_user_id : option Z;
  log_action : string;
  log_reason : Reason;
  log_timestamp : Z
}.

Record DB := mkDB {
  groups : gmap Z Group;
  group_users : gmap (Z * Z) GroupUser;
  forbidden_words : list ForbiddenWord;
  admin_logs : list AdminLog
}.

(** ** The Bot API seen from the handlers *)

Inductive ChatMemberStatus := OWNER | ADMINISTRATOR | MEMBER | RESTRICTED | LEFT | BANNED.

(** What a Bot API call raises: [BadRequest], or another subclass of
    [TelegramError] ([Forbidden], [TimedOut], ...). *)
Inductive TelegramErrorKind := BadRequest | OtherError.

(** The exceptions met in the handlers. *)
Inductive exn := TelegramError (k : TelegramErrorKind) | TypeError.

(** The messages the bot writes to the chat, by their interpolated data. *)
Inductive Notice :=
| FloodWarnNotice (warns : Z)
| WordWarnNotice (w : string) (warns : Z)
| BanNotice (threshold : Z)
| MuteNotice (threshold : Z)
| MuteExpiredReply
| TextReply (s : string)
| WarnReply (warns : Z) (extra : string)
| UnwarnReply (warns : Z)
| BanReply.

Inductive Call :=
| DeleteMessage (chat message : Z)
| SendMessage (chat : Z) (n : Notice)
| BanChatMember (chat user : Z)
| RestrictChatMember (chat user : Z) (can_send_messages : bool) (until_date : option Z).

Inductive outcome := Done | Fails (k : TelegramErrorKind).

#[global] Instance TelegramErrorKind_eq_dec : EqDecision TelegramErrorKind.
Proof. solve_decision. Defined.

#[global] Instance outcome_eq_dec : EqDecision outcome.
Proof. solve_decision. Defined.

#[global] Instance Notice_eq_dec : EqDecision Notice.
Proof. solve_decision. Defined.

#[global] Instance Call_eq_dec : EqDecision Call.
Proof. solve_decision. Defined.

(** What a handler finds around it while it runs: the configured owner,
    [context.bot.id], the clocks [datetime.utcnow()] and [datetime.now()],
    the status [context.bot.get_chat_member(chat, user)] answers ([None]
    when the call raises [TelegramError]), whether the lookup of
    [get_user_info_from_telegram] answers for a user, and the outcome of
    each of the other calls. *)
Record Env := mkEnv {
  OWNER_USER_ID : Z;
  bot_id : Z;
  utcnow : Z;
  now : Z;
  get_chat_member : Z -> Z -> option ChatMemberStatus;
  user_info : Z -> bool;
  api : Call -> outcome
}.

(** The database and the calls made so far. *)

Record World := mkWorld { db : DB; calls : list (Call * outcome) }.

(** ** Control flow *)

(** How a block of statements ends: it runs to its end with a value, it
    executes [return], or it raises. *)
Inductive result (A : Type) :=
| Normal (a : A)
| Returned
| Raised (e : exn).
Arguments Normal {A} a.
Arguments Returned {A}.
Arguments Raised {A} e.

Definition M (A : Type) : Type := World -> result A * World.

#[global] Instance M_ret : MRet M := fun A a w => (Normal a, w).

#[global] Instance M_bind : MBind M := fun A B k m w =>
  match m w with
  | (Normal a, w') => k a w'
  | (Returned, w') => (Returned, w')
  | (Raised e, w') => (Raised e, w')
  end.

(** [return] *)
Definition return_ {A} : M A := fun w => (Returned, w).

(** [raise e] *)
Definition raise {A} (e : exn) : M A := fun w => (Raised e, w).

(** [try: body except ...: handler]; [handler e = None] when no clause
    matches [e]. *)
Definition try_except {A} (body : M A) (handler : exn -> option (M A)) : M A :=
  fun w =>
    match body w with
    | (Raised e, w') =>
        match handler e with
        | Some h => h w'
        | None => (Raised e, w')
        end
    | r => r
    end.

(** The body of an [async def] that returns [None]: a [return] ends it. *)
Definition def (body : M unit) : M unit :=
  fun w =>
    match body w with
    | (Returned, w') => (Normal tt, w')
    | r => r
    end.

Definition get_db : M DB := fun w => (Normal (db w), w).

Definition put_db (d : DB) : M unit :=
  fun w => (Normal tt, {| db := d; calls := calls w |}).

(** An awaited Bot API call. *)
Definition await (env : Env) (c : Call) : M unit :=
  fun w =>
    let o := api env c in
    let w' := {| db := db w; calls := (c, o) :: calls w |} in
    match o with
    | Done => (Normal tt, w')
    | Fails k => (Raised (TelegramError k), w')
    end.

(** [logger.*]: no effect on the world. *)
Definition log : M unit := mret tt.

(** [for x in l: body x] *)
Fixpoint for_each {A} (l : list A) (body : A -> M unit) : M unit :=
  match l with
  | [] => mret tt
  | x :: r => body x;; for_each r body
  end.

(** ** Database helpers (section 2 of bot.py) *)

Definition with_groups (gs : gmap Z Group) (d : DB) : DB :=
  {| groups := gs; group_users := group_users d;
     forbidden_words := forbidden_words d; admin_logs := admin_logs d |}.

Definition with_group_users (us : gmap (Z * Z) GroupUser) (d : DB) : DB :=
  {| groups := groups d; group_users := us;
     forbidden_words := forbidden_words d; admin_logs := admin_logs d |}.

Definition with_forbidden_words (ws : list ForbiddenWord) (d : DB) : DB :=
  {| groups := groups d; group_users := group_users d;
     forbidden_words := ws; admin_logs := admin_logs d |}.

Definition with_admin_logs (ls : list AdminLog) (d : DB) : DB :=
  {| groups := groups d; group_users := group_users d;
     forbidden_words := forbidden_words d; admin_logs := ls |}.

Definition get_or_create_group (chat_id : Z) : M Group :=
  d ← get_db;
  match groups d !! chat_id with
  | Some g => mret g
  | None =>
      put_db (with_groups (<[chat_id := new_Group]> (groups d)) d);;
      mret new_Group
  end.

(** [session.query(Group).filter_by(id=chat_id).first()] *)
Definition query_group (chat_id : Z) : M (option Group) :=
  d ← get_db; mret (groups d !! chat_id).

(** [session.query(GroupUser).filter_by(group_id=..., user_id=...).first()] *)
Definition query_group_user (g u : Z) : M (option GroupUser) :=
  d ← get_db; mret (group_users d !! (g, u)).

Definition get_or_create_group_user (g u : Z) : M GroupUser :=
  d ← get_db;
  match group_users d !! (g, u) with
  | Some r => mret r
  | None =>
      put_db (with_group_users (<[(g, u) := new_GroupUser]> (group_users d)) d);;
      mret new_GroupUser
  end.

(** [session.commit()] after assignments to the attributes of the row [r]
    of group [g] and user [u]. *)
Definition commit (g u : Z) (r : GroupUser) : M unit :=
  d ← get_db;
  put_db (with_group_users (<[(g, u) := r]> (group_users d)) d).

(** [session.delete(group_user); session.commit()] *)
Definition delete_group_user (g u : Z) : M unit :=
  d ← get_db;
  put_db (with_group_users (delete (g, u) (group_users d)) d).

Definition has_word (g : Z) (w : string) (fw : ForbiddenWord) : bool :=
  bool_decide (fw_group_id fw = g) && bool_decide (word fw = w).

Definition add_forbidden_word_with (lower : string -> string) (g : Z) (w : string)
    : M bool :=
  d ← get_db;
  if existsb (has_word g (lower w)) (forbidden_words d) then mret false
  else
    put_db (with_forbidden_words
              (forbidden_words d ++ [mkForbiddenWord g (lower w)]) d);;
    mret true.

Definition add_forbidden_word : Z -> string -> M bool :=
  add_forbidden_word_with Text.lower.

Definition get_forbidden_words (g : Z) : M (list string) :=
  d ← get_db;
  mret (word <$> filter (λ fw, fw_group_id fw = g) (forbidden_words d)).

Definition log_admin_action (env : Env) (g admin : Z) (action : string)
    (target : option Z) (reason : Reason) : M unit :=
  d ← get_db;
  put_db (with_admin_logs
            (admin_logs d ++ [mkAdminLog g admin target action reason (utcnow env)]) d).

(** ** Utilities (section 3 of bot.py) *)

Definition is_admin_status (s : ChatMemberStatus) : bool :=
  match s with
  | ADMINISTRATOR | OWNER => true
  | _ => false
  end.

Definition is_user_admin_or_owner (env : Env) (chat_id uid : Z) : bool :=
  if bool_decide (uid = OWNER_USER_ID env) then true
  else
    match get_chat_member env chat_id uid with
    | Some s => is_admin_status s
    | None => false
    end.

Definition is_bot_admin (env : Env) (chat_id : Z) : bool :=
  match get_chat_member env chat_id (bot_id env) with
  | Some s => is_admin_status s
  | None => false
  end.

(** [get_user_info_from_telegram]: [None] when the lookup raises. *)
Definition get_user_info_from_telegram (env : Env) (uid : Z) : option Z :=
  if user_info env uid then Some uid else None.

(** [get_or_create_user(session, user_data)]: subscripting [None] raises
    [TypeError]; the [users] row itself is not represented. *)
Definition get_or_create_user (user_data : option Z) : M unit :=
  match user_data with
  | Some _ => mret tt
  | None => raise TypeError
  end.

(** [timedelta(minutes=60)] *)
Definition mute_duration : Z := 60 * 60 * 1000000.

(** The permissions sent to lift a mute; [can_send_messages=True] and no
    [until_date]. *)
Definition unmute_call (chat_id uid : Z) : Call :=
  RestrictChatMember chat_id uid true None.

Definition mute_call (chat_id uid : Z) (until : Z) : Call :=
  RestrictChatMember chat_id uid false (Some until).

(** A command message: the sender, what [extract_target_user_id] sees (the
    author of the replied-to message, the first argument read by [int]),
    and the rest of the arguments joined as the reason. *)
Record Command := mkCommand {
  cmd_chat_id : Z;
  cmd_admin_id : Z;
  cmd_reply_to : option Z;
  cmd_arg_id : option Z;
  cmd_reason : string
}.

Definition extract_target_user_id (env : Env) (c : Command) : M (option Z) :=
  match cmd_reply_to c with
  | Some t => mret (Some t)
  | None =>
      match cmd_arg_id c with
      | Some t => mret (Some t)
      | None =>
          await env (SendMessage (cmd_chat_id c) (TextReply "reply to the user or give a numeric id"));;
          mret None
      end
  end.

(** [if not target_user_id: return] ([0] is false as well). *)
Definition require_target (t : option Z) : M Z :=
  match t with
  | Some t => if bool_decide (t = 0) then return_ else mret t
  | None => return_
  end.

(** [if b: body] *)
Definition when (b : bool) (body : M unit) : M unit :=
  if b then body else mret tt.

(** [except TelegramError as e: ...] *)
Definition except_TelegramError {A} (h : M A) (e : exn) : option (M A) :=
  match e with
  | TelegramError _ => Some h
  | TypeError => None
  end.

(** [except BadRequest as e: ...] *)
Definition except_BadRequest {A} (h : M A) (e : exn) : option (M A) :=
  match e with
  | TelegramError BadRequest => Some h
  | _ => None
  end.

(** [except Exception as e: ...] *)
Definition except_Exception {A} (h : M A) (e : exn) : option (M A) := Some h.

(** ** Commands (section 4 of bot.py)

    The functions below are the bodies the decorator
    [require_admin_permission] lets through. *)

Definition reply (env : Env) (c : Command) (n : Notice) : M unit :=
  await env (SendMessage (cmd_chat_id c) n).

(** The block "Check for automatic moderation actions" of [warn_command];
    its result is what it appends to the reply. *)
Definition automatic_moderation (env : Env) (c : Command) (target_user_id : Z)
    (group_user : GroupUser) (mute_on_warn ban_on_warn : Z) : M string :=
  let chat_id := cmd_chat_id c in
  let admin_id := cmd_admin_id c in
  if bool_decide (ban_on_warn ≤ warns group_user) then
    try_except
      (await env (BanChatMember chat_id target_user_id);;
       delete_group_user chat_id target_user_id;;
       log_admin_action env chat_id admin_id "auto_ban_on_warn"
         (Some target_user_id) (ReasonReached ban_on_warn "warns");;
       mret "banned")
      (except_TelegramError (log;; mret "could not ban"))
  else if bool_decide (mute_on_warn ≤ warns group_user) then
    try_except
      (let until_date := now env + mute_duration in
       await env (mute_call chat_id target_user_id until_date);;
       commit chat_id target_user_id (set_mute true (Some until_date) group_user);;
       log_admin_action env chat_id admin_id "auto_mute_on_warn"
         (Some target_user_id) (ReasonReached mute_on_warn "warns");;
       mret "muted")
      (except_TelegramError (log;; mret "could not mute"))
  else mret "".

Definition warn_command (env : Env) (c : Command) : M unit := def (
  let chat_id := cmd_chat_id c in
  let admin_id := cmd_admin_id c in
  t ← extract_target_user_id env c;
  target_user_id ← require_target t;
  when (bool_decide (target_user_id = admin_id))
    (reply env c (TextReply "you cannot warn yourself");; return_);;
  when (bool_decide (target_user_id = bot_id env))
    (reply env c (TextReply "you cannot warn me");; return_);;
  when (is_user_admin_or_owner env chat_id target_user_id)
    (reply env c (TextReply "admins cannot be warned");; return_);;
  let target_user_info := get_user_info_from_telegram env target_user_id in
  when (bool_decide (target_user_info = None))
    (reply env c (TextReply "user not found");; return_);;
  get_or_create_user target_user_info;;
  loaded ← get_or_create_group_user chat_id target_user_id;
  let group_user := set_warns (warns loaded + 1) loaded in
  db_group ← query_group chat_id;
  let mute_on_warn := from_option mute_on_warn_count 3 db_group in
  let ban_on_warn := from_option ban_on_warn_count 5 db_group in
  commit chat_id target_user_id group_user;;
  log_admin_action env chat_id admin_id "warn" (Some target_user_id)
    (ReasonText (cmd_reason c));;
  extra ← automatic_moderation env c target_user_id group_user mute_on_warn ban_on_warn;
  reply env c (WarnReply (warns group_user) extra)).

Definition unwarn_command (env : Env) (c : Command) : M unit := def (
  let chat_id := cmd_chat_id c in
  let admin_id := cmd_admin_id c in
  t ← extract_target_user_id env c;
  target_user_id ← require_target t;
  let target_user_info := get_user_info_from_telegram env target_user_id in
  when (bool_decide (target_user_info = None))
    (reply env c (TextReply "user not found");; return_);;
  get_or_create_user target_user_info;;
  group_user ← query_group_user chat_id target_user_id;
  match group_user with
  | Some r =>
      if bool_decide (0 < warns r) then
        commit chat_id target_user_id (set_warns (warns r - 1) r);;
        reply env c (UnwarnReply (warns r - 1));;
        log_admin_action env chat_id admin_id "unwarn" (Some target_user_id) NoReason
      else reply env c (TextReply "no warns")
  | None => reply env c (TextReply "not in the group database")
  end).

Definition ban_command (env : Env) (c : Command) : M unit := def (
  let chat_id := cmd_chat_id c in
  let admin_id := cmd_admin_id c in
  t ← extract_target_user_id env c;
  target_user_id ← require_target t;
  when (bool_decide (target_user_id = admin_id))
    (reply env c (TextReply "you cannot ban yourself");; return_);;
  when (bool_decide (target_user_id = bot_id env))
    (reply env c (TextReply "you cannot ban me");; return_);;
  when (is_user_admin_or_owner env chat_id target_user_id)
    (reply env c (TextReply "admins cannot be banned");; return_);;
  try_except
    (await env (BanChatMember chat_id target_user_id);;
     get_or_create_user (get_user_info_from_telegram env target_user_id);;
     group_user ← query_group_user chat_id target_user_id;
     match group_user with
     | Some _ => delete_group_user chat_id target_user_id
     | None => mret tt
     end;;
     reply env c BanReply;;
     log_admin_action env chat_id admin_id "ban" (Some target_user_id)
       (ReasonText (cmd_reason c)))
    (except_TelegramError (reply env c (TextReply "could not ban")))).

(** ** The message pipeline (section 6 of bot.py) *)

Record Update := mkUpdate {
  chat_id : Z;
  sender_id : Z;
  message_id : Z;
  text : option string;
  new_chat_members : bool;
  left_chat_member : bool;
  photo : bool;
  video : bool;
  entities : list (option string);
  caption_entities : list (option string);
  forward_from : bool;
  forward_from_chat : bool;
  sticker : bool;
  animation : bool;
  voice : bool;
  document : bool;
  video_note : bool;
  poll : bool;
  game : bool
}.

Definition delete_message (env : Env) (u : Update) : M unit :=
  await env (DeleteMessage (chat_id u) (message_id u)).

(** 6.1 System message cleanup. *)
Definition system_message_cleanup (env : Env) (u : Update) : M unit :=
  when (new_chat_members u || left_chat_member u)
    (try_except (delete_message env u;; return_)
       (except_BadRequest log)).

(** 6.2 Muted user status.  The row as the later stages see it is the
    result. *)
Definition muted_user_check (env : Env) (u : Update) (group_user : GroupUser)
    : M GroupUser :=
  if is_muted group_user then
    if match mute_until group_user with
       | Some t => bool_decide (t < utcnow env)
       | None => false
       end
    then
      if is_bot_admin env (chat_id u) then
        try_except
          (await env (unmute_call (chat_id u) (sender_id u));;
           let group_user := set_mute false None group_user in
           commit (chat_id u) (sender_id u) group_user;;
           await env (SendMessage (chat_id u) MuteExpiredReply);;
           log_admin_action env (chat_id u) (bot_id env) "auto_unmute"
             (Some (sender_id u)) (ReasonText "Mute expired");;
           mret group_user)
          (except_Exception
             (log;;
              let group_user := set_mute false None group_user in
              commit (chat_id u) (sender_id u) group_user;;
              mret group_user))
      else log;; mret group_user
    else
      (if is_bot_admin env (chat_id u) then
         try_except (delete_message env u;; return_) (except_Exception log)
       else log);;
      return_
  else mret group_user.

(** The check for mute or ban that follows an automatic warn; the two
    places it stands in differ in the names written to the log. *)
Definition escalate (env : Env) (u : Update) (db_group : Group)
    (group_user : GroupUser) (cause source : string) : M unit :=
  if bool_decide (ban_on_warn_count db_group ≤ warns group_user) then
    await env (BanChatMember (chat_id u) (sender_id u));;
    delete_group_user (chat_id u) (sender_id u);;
    await env (SendMessage (chat_id u) (BanNotice (ban_on_warn_count db_group)));;
    log_admin_action env (chat_id u) (bot_id env) ("auto_ban_" +:+ cause)
      (Some (sender_id u)) (ReasonReached (ban_on_warn_count db_group) source)
  else if bool_decide (mute_on_warn_count db_group ≤ warns group_user) then
    let until_date := now env + mute_duration in
    await env (mute_call (chat_id u) (sender_id u) until_date);;
    commit (chat_id u) (sender_id u) (set_mute true (Some until_date) group_user);;
    await env (SendMessage (chat_id u) (MuteNotice (mute_on_warn_count db_group)));;
    log_admin_action env (chat_id u) (bot_id env) ("auto_mute_" +:+ cause)
      (Some (sender_id u)) (ReasonReached (mute_on_warn_count db_group) source)
  else mret tt.

(** The counter update of 6.3. *)
Definition flood_count (env : Env) (db_group : Group) (group_user : GroupUser) : Z :=
  match last_message_time group_user with
  | Some last =>
      if bool_decide (utcnow env - last < anti_flood_time db_group * 1000000)
      then message_count_in_interval group_user + 1
      else 1
  | None => 1
  end.

(** The body of the [try] block of 6.3 and of 6.4: the same statements in
    both places, up to the notice and the names written to the log. *)
Definition delete_and_warn (env : Env) (u : Update) (db_group : Group)
    (group_user : GroupUser) (notice : Z -> Notice) (action : string)
    (reason : Reason) (cause source : string) : M unit :=
  delete_message env u;;
  let group_user := set_warns (warns group_user + 1) group_user in
  commit (chat_id u) (sender_id u) group_user;;
  await env (SendMessage (chat_id u) (notice (warns group_user)));;
  log_admin_action env (chat_id u) (bot_id env) action (Some (sender_id u)) reason;;
  escalate env u db_group group_user cause source;;
  return_.

(** 6.3 Anti-flood. *)
Definition anti_flood (env : Env) (u : Update) (db_group : Group)
    (group_user : GroupUser) : M GroupUser :=
  if anti_flood_enabled db_group && Text.truthy (text u) then
    let current_time := utcnow env in
    let group_user :=
      set_flood (Some current_time) (flood_count env db_group group_user) group_user in
    commit (chat_id u) (sender_id u) group_user;;
    when (bool_decide (anti_flood_limit db_group < message_count_in_interval group_user))
      (when (is_bot_admin env (chat_id u))
         (try_except
            (delete_and_warn env u db_group group_user FloodWarnNotice
               "auto_warn_flood" (ReasonText "Flooding detected")
               "flood" "flooding")
            (except_Exception log));;
       return_);;
    mret group_user
  else mret group_user.

(** 6.4 Forbidden words. *)
Definition forbidden_words_filter_with (lower : string -> string) (env : Env)
    (u : Update) (db_group : Group) (group_user : GroupUser) : M unit :=
  when (Text.truthy (text u))
    (let message_text_lower := lower (default "" (text u)) in
     forbidden ← get_forbidden_words (chat_id u);
     for_each forbidden (λ word,
       when (Text.contains word message_text_lower)
         (when (is_bot_admin env (chat_id u))
            (try_except
               (delete_and_warn env u db_group group_user (WordWarnNotice word)
                  "auto_warn_forbidden_word" (ReasonWord word)
                  "forbidden_word" "forbidden words")
               (except_Exception log));;
          return_))).

Definition forbidden_words_filter : Env -> Update -> Group -> GroupUser -> M unit :=
  forbidden_words_filter_with Text.lower.

(** The branch of the [if]/[elif] chain of 6.5 that a message takes. *)
Definition locked_media (g : Group) (u : Update) : option string :=
  if lock_photos g && photo u then Some "Photo locked"
  else if lock_videos g && video u then Some "Video locked"
  else if lock_links g
          && bool_decide (entities u ≠ [] ∨ caption_entities u ≠ [])
          && existsb Text.truthy (entities u ++ caption_entities u)
       then Some "Link locked"
  else if (lock_forwards g && forward_from u) || forward_from_chat u
       then Some "Forward locked"
  else if lock_stickers g && sticker u then Some "Sticker locked"
  else if lock_gifs g && animation u then Some "GIF locked"
  else if lock_voice g && voice u then Some "Voice locked"
  else if lock_documents g && document u then Some "Document locked"
  else if lock_videonotes g && video_note u then Some "Video note locked"
  else if lock_polls g && poll u then Some "Poll locked"
  else if lock_games g && game u then Some "Game locked"
  else None.

(** 6.5 Media locks. *)
Definition media_locks (env : Env) (u : Update) (db_group : Group) : M unit :=
  when (is_bot_admin env (chat_id u))
    match locked_media db_group u with
    | Some why =>
        delete_message env u;;
        log_admin_action env (chat_id u) (bot_id env) "delete_locked_media"
          (Some (sender_id u)) (ReasonText why);;
        return_
    | None => mret tt
    end.

(** 6.3 to 6.6: what an un-muted sender's message goes through. *)
Definition evaluate_rules_with (lower : string -> string) (env : Env) (u : Update)
    (db_group : Group) (group_user : GroupUser) : M unit :=
  group_user ← anti_flood env u db_group group_user;
  forbidden_words_filter_with lower env u db_group group_user;;
  media_locks env u db_group.

Definition evaluate_rules : Env -> Update -> Group -> GroupUser -> M unit :=
  evaluate_rules_with Text.lower.

Definition handle_all_messages_with (lower : string -> string) (env : Env)
    (u : Update) : M unit := def (
  when (bool_decide (sender_id u = bot_id env)
        || is_user_admin_or_owner env (chat_id u) (sender_id u))
    return_;;
  try_except
    (db_group ← get_or_create_group (chat_id u);
     group_user ← get_or_create_group_user (chat_id u) (sender_id u);
     system_message_cleanup env u;;
     group_user ← muted_user_check env u group_user;
     evaluate_rules_with lower env u db_group group_user)
    (except_Exception log)).

Definition handle_all_messages : Env -> Update -> M unit :=
  handle_all_messages_with Text.lower.

(** ** Background job (section 7 of bot.py) *)

Definition mute_expired (t : Z) (r : GroupUser) : bool :=
  is_muted r &&
  match mute_until r with
  | Some until => bool_decide (until < t)
  | None => false
  end.

(** The body of the loop of [check_expired_mutes] for one row. *)
Definition unmute_expired (env : Env) (row : Z * Z * GroupUser) : M unit :=
  let '((group_id, user_id), group_user) := row in
  if negb (is_bot_admin env group_id) then log
  else
    try_except
      (await env (unmute_call group_id user_id);;
       commit group_id user_id (set_mute false None group_user);;
       log_admin_action env group_id (bot_id env) "auto_unmute_expired"
         (Some user_id) (ReasonText "Mute expired"))
      (λ e, match e with
            | TelegramError BadRequest =>
                Some (log;; commit group_id user_id (set_mute false None group_user))
            | TelegramError OtherError => Some log
            | TypeError => None
            end).

Definition check_expired_mutes (env : Env) : M unit := def (
  d ← get_db;
  let expired_mutes :=
    filter (λ row, mute_expired (utcnow env) row.2) (map_to_list (group_users d)) in
  for_each expired_mutes (unmute_expired env)).

(** ** Dispatch and runs *)

(** What the application hands to the handlers modelled here. *)
Inductive Event :=
| Message (u : Update)
| WarnCommand (c : Command)
| BanCommand (c : Command)
| ExpiredMutesJob.

Definition handle (env : Env) (ev : Event) : M unit :=
  match ev with
  | Message u => handle_all_messages env u
  | WarnCommand c => warn_command env c
  | BanCommand c => ban_command env c
  | ExpiredMutesJob => check_expired_mutes env
  end.

(** The world a handler leaves behind. *)
Definition step (env : Env) (ev : Event) (w : World) : World :=
  (handle env ev w).2.

(** Events handled one after the other, each in its own environment. *)
Fixpoint run (evs : list (Env * Event)) (w : World) : World :=
  match evs with
  | [] => w
  | (env, ev) :: rest => run rest (step env ev w)
  end.

(** ** Observations used in the statements *)

(** The row [get_or_create_group_user] hands out. *)
Definition actor_state (d : DB) (g a : Z) : GroupUser :=
  default new_GroupUser (group_users d !! (g, a)).

(** The row [get_or_create_group] hands out. *)
Definition policy (d : DB) (g : Z) : Group :=
  default new_Group (groups d !! g).

Definition words_of (d : DB) (g : Z) : list string :=
  word <$> filter (λ fw, fw_group_id fw = g) (forbidden_words d).

Definition is_ban (c : Call) : bool :=
  match c with BanChatMember _ _ => true | _ => false end.

Definition is_mute (c : Call) : bool :=
  match c with RestrictChatMember _ _ false _ => true | _ => false end.

Definition is_warn_notice (c : Call) : bool :=
  match c with
  | SendMessage _ (FloodWarnNotice _ | WordWarnNotice _ _ | WarnReply _ _) => true
  | _ => false
  end.

Definition is_delete (c : Call) : bool :=
  match c with DeleteMessage _ _ => true | _ => false end.

(** Number of attempted calls of a kind. *)
Definition count (p : Call -> bool) (w : World) : nat :=
  List.length (List.filter (λ x, p x.1) (calls w)).

(** The verdict of the pipeline on a message, in the order of its stages
    6.3, 6.4, 6.5. *)
Inductive Classification :=
| NoViolation
| Flood
| ForbiddenWordUsed (w : string)
| LockedMedia (kind : string).

#[global] Instance Classification_eq_dec : EqDecision Classification.
Proof. solve_decision. Defined.

Definition floods (env : Env) (g : Group) (r : GroupUser) (u : Update) : bool :=
  anti_flood_enabled g && Text.truthy (text u)
  && bool_decide (anti_flood_limit g < flood_count env g r).

Definition first_forbidden_with (lower : string -> string) (ws : list string)
    (u : Update) : option string :=
  if Text.truthy (text u)
  then List.find (λ w, Text.contains w (lower (default "" (text u)))) ws
  else None.

Definition first_forbidden : list string -> Update -> option string :=
  first_forbidden_with Text.lower.

Definition classify_with (lower : string -> string) (env : Env) (d : DB) (u : Update)
    : Classification :=
  let g := policy d (chat_id u) in
  let r := actor_state d (chat_id u) (sender_id u) in
  if floods env g r u then Flood
  else
    match first_forbidden_with lower (words_of d (chat_id u)) u with
    | Some w => ForbiddenWordUsed w
    | None =>
        match locked_media g u with
        | Some kind => LockedMedia kind
        | None => NoViolation
        end
    end.

Definition classify : Env -> DB -> Update -> Classification :=
  classify_with Text.lower.

(** A message of a sender the pipeline moderates and can act upon: not
    exempt, not a join or leave notice, not muted, and the bot is an
    administrator. *)
Definition moderated (env : Env) (d : DB) (u : Update) : Prop :=
  sender_id u ≠ bot_id env ∧
  is_user_admin_or_owner env (chat_id u) (sender_id u) = false ∧
  new_chat_members u = false ∧ left_chat_member u = false ∧
  is_muted (actor_state d (chat_id u) (sender_id u)) = false ∧
  is_bot_admin env (chat_id u) = true.

(** The target [extract_target_user_id] resolves. *)
Definition target_of (c : Command) : option Z :=
  match cmd_reply_to c with
  | Some t => Some t
  | None => cmd_arg_id c
  end.

(** A [/warn] that passes the checks before the count is touched. *)
Definition warnable (env : Env) (c : Command) (a : Z) : Prop :=
  target_of c = Some a ∧ a ≠ 0 ∧ a ≠ cmd_admin_id c ∧ a ≠ bot_id env ∧
  is_user_admin_or_owner env (cmd_chat_id c) a = false ∧
  user_info env a = true.

(** An event that adds a warn to actor [a] of group [g]: a flood or a
    forbidden word in a moderated message that the bot manages to delete,
    or a [/warn] that passes its checks. *)
Definition warns_actor (env : Env) (d : DB) (ev : Event) (g a : Z) : Prop :=
  match ev with
  | Message u =>
      chat_id u = g ∧ sender_id u = a ∧ moderated env d u ∧
      api env (DeleteMessage (chat_id u) (message_id u)) = Done ∧
      (classify env d u = Flood ∨ ∃ x, classify env d u = ForbiddenWordUsed x)
  | WarnCommand c => cmd_chat_id c = g ∧ warnable env c a
  | _ => False
  end.

(** The warning the pipeline posts for a verdict and a warn count. *)
Definition warning_notice (cls : Classification) (n : Z) : option Notice :=
  match cls with
  | Flood => Some (FloodWarnNotice n)
  | ForbiddenWordUsed x => Some (WordWarnNotice x n)
  | _ => None
  end.

(** Whether the handler gets from the warn to the threshold check: in the
    pipeline the warning notice stands between the two. *)
Definition reaches_check (env : Env) (d : DB) (ev : Event) : Prop :=
  match ev with
  | Message u =>
      let n := warns (actor_state d (chat_id u) (sender_id u)) + 1 in
      match warning_notice (classify env d u) n with
      | Some notice => api env (SendMessage (chat_id u) notice) = Done
      | None => False
      end
  | WarnCommand _ => True
  | _ => False
  end.

(** The three classes of action of the escalation. *)
Inductive Action := Ban | Mute | Warn.

(** The class the thresholds select for a warn count [n]. *)
Definition decision (p : Group) (n : Z) : Action :=
  if bool_decide (ban_on_warn_count p ≤ n) then Ban
  else if bool_decide (mute_on_warn_count p ≤ n) then Mute
  else Warn.

(** The class of what a handler did between two worlds: one ban call and
    no mute call, one mute call and no ban call, or neither and a warning;
    anything else is not one class. *)
Definition action_class (w w' : World) : option Action :=
  match (count is_ban w' - count is_ban w,
         count is_mute w' - count is_mute w,
         count is_warn_notice w' - count is_warn_notice w)%nat with
  | (1, 0, _)%nat => Some Ban
  | (0, 1, _)%nat => Some Mute
  | (0, 0, S _)%nat => Some Warn
  | _ => None
  end.

(** ** Worlds met on the way through the pipeline *)

(** The world after [session.commit()] of row [r] of group [g], user [a]. *)
Definition with_row (g a : Z) (r : GroupUser) (w : World) : World :=
  {| db := with_group_users (<[(g, a) := r]> (group_users (db w))) (db w);
     calls := calls w |}.

(** The database after [get_or_create_group] and
    [get_or_create_group_user]. *)
Definition provision (g a : Z) (d : DB) : DB :=
  {| groups := <[g := policy d g]> (groups d);
     group_users := <[(g, a) := actor_state d g a]> (group_users d);
     forbidden_words := forbidden_words d;
     admin_logs := admin_logs d |}.

Definition provisioned (u : Update) (w : World) : World :=
  {| db := provision (chat_id u) (sender_id u) (db w); calls := calls w |}.

(** The sender's row after the counter update of 6.3. *)
Definition counted_row (env : Env) (g : Group) (u : Update) (r : GroupUser) : GroupUser :=
  if anti_flood_enabled g && Text.truthy (text u)
  then set_flood (Some (utcnow env)) (flood_count env g r) r
  else r.

(** The world in which the [try] block of 6.3 or 6.4 starts. *)
Definition staged (env : Env) (u : Update) (w : World) : World :=
  with_row (chat_id u) (sender_id u)
    (counted_row env (policy (db w) (chat_id u)) u
       (actor_state (db w) (chat_id u) (sender_id u)))
    (provisioned u w).

(** The [try] block of 6.3 and 6.4 with its [except] clauses. *)
Definition guarded (env : Env) (u : Update) (g : Group) (r : GroupUser)
    (notice : Z -> Notice) (action : string) (reason : Reason)
    (cause source : string) : M unit :=
  try_except (delete_and_warn env u g r notice action reason cause source)
    (except_Exception log).

(** The end of [warn_command], from the threshold check on. *)
Definition moderate_and_reply (env : Env) (c : Command) (a : Z) (r : GroupUser)
    (p : Group) : M unit :=
  extra ← automatic_moderation env c a r (mute_on_warn_count p) (ban_on_warn_count p);
  reply env c (WarnReply (warns r) extra).

(** The row [warn_command] commits for its target. *)
Definition warned_row (d : DB) (g a : Z) : GroupUser :=
  set_warns (warns (actor_state d g a) + 1) (actor_state d g a).

(** The world in which [warn_command] starts its threshold check. *)
Definition warned (env : Env) (c : Command) (a : Z) (w : World) : World :=
  {| db :=
       with_admin_logs
         (admin_logs (db w) ++
          [mkAdminLog (cmd_chat_id c) (cmd_admin_id c) (Some a) "warn"
             (ReasonText (cmd_reason c)) (utcnow env)])
         (with_group_users
            (<[(cmd_chat_id c, a) := warned_row (db w) (cmd_chat_id c) a]>
               (group_users (db w)))
            (db w));
     calls := calls w |}.

(** ** The flood counter as the specification words it

    A fixed window: while [now - window_start < seconds] the count goes up
    and the window start stays; otherwise the window starts again at [now]
    with count 1.  The verdict is whether the new count exceeds the limit. *)

Record Window := mkWindow { window_start : option Z; window_count : Z }.

Definition spec_fixed_window (limit seconds : Z) (s : Window) (t : Z) : Window * bool :=
  let s' :=
    match window_start s with
    | Some start =>
        if bool_decide (t - start < seconds * 1000000)
        then {| window_start := Some start; window_count := window_count s + 1 |}
        else {| window_start := Some t; window_count := 1 |}
    | None => {| window_start := Some t; window_count := 1 |}
    end in
  (s', bool_decide (limit < window_count s')).

(** The verdicts of [spec_fixed_window] on messages at the given times. *)
Fixpoint spec_fixed_window_verdicts (limit seconds : Z) (s : Window) (ts : list Z) : list bool :=
  match ts with
  | [] => []
  | t :: rest =>
      (spec_fixed_window limit seconds s t).2
      :: spec_fixed_window_verdicts limit seconds (spec_fixed_window limit seconds s t).1 rest
  end.

(** The verdicts of the pipeline on a run of messages: the verdict of each
    in the world the earlier ones left. *)
Fixpoint flood_verdicts (evs : list (Env * Update)) (w : World) : list bool :=
  match evs with
  | [] => []
  | (env, u) :: rest =>
      bool_decide (classify env (db w) u = Flood)
      :: flood_verdicts rest (step env (Message u) w)
  end.

(** The senders the first check of [handle_all_messages] lets go: the bot
    itself, the configured bot owner, and whoever the platform reports as
    administrator or owner of the group. *)
Definition exempt (env : Env) (u : Update) : Prop :=
  sender_id u = bot_id env ∨
  sender_id u = OWNER_USER_ID env ∨
  get_chat_member env (chat_id u) (sender_id u) = Some ADMINISTRATOR ∨
  get_chat_member env (chat_id u) (sender_id u) = Some OWNER.

(** ** Scenarios

    A group [-1001] with the bot [999] as administrator, an administrator
    [1000], and ordinary members. *)

Module Scenario.

Definition chat : Z := -1001.
Definition bot : Z := 999.
Definition admin : Z := 1000.
Definition member : Z := 7.

Definition seconds (n : Z) : Z := n * 1000000.

(** *** Environments *)

Definition members (c uid : Z) : option ChatMemberStatus :=
  if bool_decide (uid = bot) then Some ADMINISTRATOR
  else if bool_decide (uid = admin) then Some ADMINISTRATOR
  else Some MEMBER.

(** Every call succeeds; the two clocks agree. *)
Definition env_at (t : Z) : Env :=
  {| OWNER_USER_ID := 6508600903; bot_id := bot; utcnow := t; now := t;
     get_chat_member := members; user_info := λ _, true; api := λ _, Done |}.

Definition env : Env := env_at 0.

(** The same, with the bot an ordinary member. *)
Definition env_not_admin (t : Z) : Env :=
  {| OWNER_USER_ID := 6508600903; bot_id := bot; utcnow := t; now := t;
     get_chat_member := λ _ _, Some MEMBER; user_info := λ _, true;
     api := λ _, Done |}.

(** The same as [env_at], but every restrict call fails with [k]. *)
Definition env_restrict_fails (k : TelegramErrorKind) (t : Z) : Env :=
  {| OWNER_USER_ID := 6508600903; bot_id := bot; utcnow := t; now := t;
     get_chat_member := members; user_info := λ _, true;
     api := λ c, match c with
                 | RestrictChatMember _ _ _ _ => Fails k
                 | _ => Done
                 end |}.

(** The same as [env_at], but the call that lifts a mute is answered by
    [BadRequest] when the user is [gone]. *)
Definition env_gone (gone : Z) (t : Z) : Env :=
  {| OWNER_USER_ID := 6508600903; bot_id := bot; utcnow := t; now := t;
     get_chat_member := members; user_info := λ _, true;
     api := λ c, match c with
                 | RestrictChatMember _ uid true None =>
                     if bool_decide (uid = gone) then Fails BadRequest else Done
                 | _ => Done
                 end |}.

(** The same as [env_at], but no user information can be fetched. *)
Definition env_no_user_info (t : Z) : Env :=
  {| OWNER_USER_ID := 6508600903; bot_id := bot; utcnow := t; now := t;
     get_chat_member := members; user_info := λ _, false; api := λ _, Done |}.

(** *** Groups and rows *)

(** The default settings, with photos locked. *)
Definition photos_locked : Group :=
  {| anti_flood_enabled := true; anti_flood_limit := 5; anti_flood_time := 10;
     mute_on_warn_count := 3; ban_on_warn_count := 5;
     lock_photos := true; lock_videos := false; lock_links := false;
     lock_forwards := false; lock_stickers := false; lock_gifs := false;
     lock_voice := false; lock_documents := false; lock_videonotes := false;
     lock_polls := false; lock_games := false |}.

(** At most two messages in ten seconds. *)
Definition two_in_ten : Group :=
  {| anti_flood_enabled := true; anti_flood_limit := 2; anti_flood_time := 10;
     mute_on_warn_count := 3; ban_on_warn_count := 5;
     lock_photos := false; lock_videos := false; lock_links := false;
     lock_forwards := false; lock_stickers := false; lock_gifs := false;
     lock_voice := false; lock_documents := false; lock_videonotes := false;
     lock_polls := false; lock_games := false |}.

(** A row with [n] warns and nothing else. *)
Definition with_warns (n : Z) : GroupUser := set_warns n new_GroupUser.

(** A row muted until [until]. *)
Definition muted_row (until : option Z) : GroupUser := set_mute true until new_GroupUser.

(** *** Worlds: the group [chat] with its settings, rows and forbidden
    words; no call made yet *)

Definition db_of (g : Group) (rows : list (Z * GroupUser)) (ws : list string) : DB :=
  {| groups := {[chat := g]};
     group_users := list_to_map (prod_map (pair chat) id <$> rows);
     forbidden_words := mkForbiddenWord chat <$> ws;
     admin_logs := [] |}.

Definition world_of (d : DB) : World := {| db := d; calls := [] |}.

(** The default group with the forbidden word "spam"; nobody has a row. *)
Definition fresh_group : World := world_of (db_of new_Group [] ["spam"]).

(** The same, with a member who has two warns: the next warn reaches the
    mute threshold. *)
Definition two_warns : World :=
  world_of (db_of new_Group [(member, with_warns 2)] ["spam"]).

(** The same, with a member who has four warns: the next warn reaches the
    ban threshold. *)
Definition four_warns : World :=
  world_of (db_of new_Group [(member, with_warns 4)] ["spam"]).

(** The same, with a member whose warn count is negative. *)
Definition negative_warns : World :=
  world_of (db_of new_Group [(member, with_warns (-3))] ["spam"]).

(** The same, with a member whose mute ended at second 5. *)
Definition mute_over : World :=
  world_of (db_of new_Group [(member, muted_row (Some (seconds 5)))] ["spam"]).

(** The same, with a member muted without an end. *)
Definition muted_for_good : World :=
  world_of (db_of new_Group [(member, muted_row None)] ["spam"]).

(** A group that locks photos; nobody has a row. *)
Definition locked_group : World := world_of (db_of photos_locked [] []).

(** A group that allows two messages in ten seconds; nobody has a row. *)
Definition quiet_group : World := world_of (db_of two_in_ten [] []).

(** *** Messages, commands and runs *)

(** A message with nothing but the given text. *)
Definition text_message (sender mid : Z) (s : string) : Update :=
  {| chat_id := chat; sender_id := sender; message_id := mid; text := Some s;
     new_chat_members := false; left_chat_member := false;
     photo := false; video := false; entities := []; caption_entities := [];
     forward_from := false; forward_from_chat := false; sticker := false;
     animation := false; voice := false; document := false;
     video_note := false; poll := false; game := false |}.

(** A photo without caption. *)
Definition photo_message (sender mid : Z) : Update :=
  {| chat_id := chat; sender_id := sender; message_id := mid; text := None;
     new_chat_members := false; left_chat_member := false;
     photo := true; video := false; entities := []; caption_entities := [];
     forward_from := false; forward_from_chat := false; sticker := false;
     animation := false; voice := false; document := false;
     video_note := false; poll := false; game := false |}.

(** [/warn <id> spam] or [/ban <id> spam], sent by the administrator. *)
Definition command_on (target : Z) : Command :=
  {| cmd_chat_id := chat; cmd_admin_id := admin; cmd_reply_to := None;
     cmd_arg_id := Some target; cmd_reason := "spam" |}.

(** Two photos, a minute apart. *)
Definition two_photos : list (Env * Event) :=
  [(env_at (seconds 0), Message (photo_message member 1));
   (env_at (seconds 60), Message (photo_message member 2))].

(** A forbidden word, then a [/warn]. *)
Definition word_then_warn : list (Env * Event) :=
  [(env_at (seconds 0), Message (text_message member 1 "this is SPAM"));
   (env_at (seconds 60), WarnCommand (command_on member))].

(** Three messages, six seconds apart. *)
Definition every_six_seconds : list (Env * Update) :=
  [(env_at (seconds 0), text_message member 1 "one");
   (env_at (seconds 6), text_message member 2 "two");
   (env_at (seconds 12), text_message member 3 "three")].

End Scenario.

(** ** Runs of warns *)

(** Every event of the run adds a warn to actor [a] of group [g], and the
    count it leads to is below both thresholds. *)
Fixpoint warns_below_thresholds (g a : Z) (evs : list (Env * Event)) (w : World) : Prop :=
  match evs with
  | [] => True
  | (env, ev) :: rest =>
      warns_actor env (db w) ev g a
      ∧ decision (policy (db w) g) (warns (actor_state (db w) g a) + 1) = Warn
      ∧ warns_below_thresholds g a rest (step env ev w)
  end.

(** A [/ban] that passes the checks before the ban call. *)
Definition bannable (env : Env) (c : Command) (a : Z) : Prop :=
  target_of c = Some a ∧ a ≠ 0 ∧ a ≠ cmd_admin_id c ∧ a ≠ bot_id env ∧
  is_user_admin_or_owner env (cmd_chat_id c) a = false.

(** ** A sender marked as muted *)

(** The world after stage 6.2 of the pipeline for a sender whose row is in
    the database. *)
Definition reconciled (env : Env) (u : Update) (w : World) : World :=
  (muted_user_check env u (actor_state (db w) (chat_id u) (sender_id u))
     (provisioned u w)).2.

(** A message the pipeline does not drop before stage 6.2. *)
Definition enters_pipeline (env : Env) (u : Update) : Prop :=
  sender_id u ≠ bot_id env ∧
  is_user_admin_or_owner env (chat_id u) (sender_id u) = false ∧
  new_chat_members u = false ∧ left_chat_member u = false.

(** ** The sweep, row by row *)

(** What [unmute_expired] leaves of a row. *)
Definition unmute_row (env : Env) (g a : Z) (r : GroupUser) : GroupUser :=
  if is_bot_admin env g then
    match api env (unmute_call g a) with
    | Done | Fails BadRequest => set_mute false None r
    | Fails OtherError => r
    end
  else r.

(** What [check_expired_mutes] leaves of a row. *)
Definition swept_row (env : Env) (k : Z * Z) (r : GroupUser) : GroupUser :=
  if mute_expired (utcnow env) r then unmute_row env k.1 k.2 r else r.

(** The job run once in each of the environments. *)
Definition sweeps (envs : list Env) : list (Env * Event) :=
  (λ env, (env, ExpiredMutesJob)) <$> envs.

(** * Properties *)

(** ** Control flow *)

Ltac unfold_m :=
  unfold delete_and_warn, escalate, automatic_moderation, delete_message, reply,
    commit, delete_group_user, log_admin_action, query_group, query_group_user, await,
    try_except, except_Exception, except_TelegramError, except_BadRequest,
    when, log, return_, raise, get_db, put_db, def, mbind, M_bind, mret, M_ret in *.

(** Case analysis on the outcome of every call and on every threshold. *)
Ltac cases :=
  repeat first
    [ case_bool_decide
    | match goal with
      | |- context [api ?e ?c] => destruct (api e c) as [|[|]] eqn:?; cbn
      end ].

Lemma bind_Normal {A B} (m : M A) (k : A -> M B) w a w' :
  m w = (Normal a, w') -> (m ≫= k) w = k a w'.
Proof. intros H. unfold mbind, M_bind. by rewrite H. Qed.

Lemma bind_Returned {A B} (m : M A) (k : A -> M B) w w' :
  m w = (Returned, w') -> (m ≫= k) w = (Returned, w').
Proof. intros H. unfold mbind, M_bind. by rewrite H. Qed.

Lemma try_except_Returned {A} (m : M A) h w w' :
  m w = (Returned, w') -> try_except m h w = (Returned, w').
Proof. intros H. unfold try_except. by rewrite H. Qed.

Lemma def_Returned (m : M unit) w w' :
  m w = (Returned, w') -> def m w = (Normal tt, w').
Proof. intros H. unfold def. by rewrite H. Qed.

Lemma def_ext (m m' : M unit) w w' : m w = m' w' -> def m w = def m' w'.
Proof. intros H. unfold def. by rewrite H. Qed.

Ltac f_equal_def := apply def_ext.

(** ** Database helpers *)

Lemma get_or_create_group_eq g w :
  get_or_create_group g w =
  (Normal (policy (db w) g),
   {| db := with_groups (<[g := policy (db w) g]> (groups (db w))) (db w);
      calls := calls w |}).
Proof.
  destruct w as [[gs us fw al] cs]. unfold get_or_create_group, policy.
  unfold_m. cbn. destruct (gs !! g) eqn:Eg; cbn; [|reflexivity].
  unfold with_groups; cbn. by rewrite insert_id.
Qed.

Lemma get_or_create_group_user_eq g a w :
  get_or_create_group_user g a w =
  (Normal (actor_state (db w) g a), with_row g a (actor_state (db w) g a) w).
Proof.
  destruct w as [[gs us fw al] cs]. unfold get_or_create_group_user, actor_state, with_row.
  unfold_m. cbn. destruct (us !! (g, a)) eqn:Eg; cbn; [|reflexivity].
  unfold with_group_users; cbn. by rewrite insert_id.
Qed.

Lemma commit_eq g a r w : commit g a r w = (Normal tt, with_row g a r w).
Proof. reflexivity. Qed.

Lemma get_forbidden_words_eq g w :
  get_forbidden_words g w = (Normal (words_of (db w) g), w).
Proof. reflexivity. Qed.

Lemma with_row_twice g a r r' w :
  with_row g a r' (with_row g a r w) = with_row g a r' w.
Proof.
  unfold with_row, with_group_users; cbn. by rewrite insert_insert_eq.
Qed.

(** The row a fresh [get_or_create_group_user] hands out after a delete. *)
Lemma get_or_create_after_delete g a w :
  group_users (db w) !! (g, a) = None ->
  (get_or_create_group_user g a w).1 = Normal new_GroupUser.
Proof. intros H. rewrite get_or_create_group_user_eq. unfold actor_state. by rewrite H. Qed.

(** ** The stages of the pipeline *)

Lemma is_user_admin_or_owner_exempt env u :
  sender_id u = OWNER_USER_ID env ∨
  (∃ s, get_chat_member env (chat_id u) (sender_id u) = Some s ∧ is_admin_status s = true) ->
  is_user_admin_or_owner env (chat_id u) (sender_id u) = true.
Proof.
  unfold is_user_admin_or_owner. intros [H|(s & H & Hs)].
  - by rewrite bool_decide_eq_true_2.
  - case_bool_decide; [done|]. by rewrite H.
Qed.

Lemma pipeline_entry_with lower env u w :
  moderated env (db w) u ->
  handle_all_messages_with lower env u w =
  def (try_except
         (evaluate_rules_with lower env u (policy (db w) (chat_id u))
            (actor_state (db w) (chat_id u) (sender_id u)))
         (except_Exception log))
      (provisioned u w).
Proof.
  intros (Hb & Ha & Hn & Hl & Hm & _).
  unfold handle_all_messages_with, system_message_cleanup, muted_user_check.
  rewrite Hn, Hl, Ha. rewrite bool_decide_eq_false_2 by done.
  unfold def, try_except, when, mbind, M_bind, mret, M_ret. cbn.
  rewrite get_or_create_group_eq, get_or_create_group_user_eq. cbn.
  change (actor_state _ (chat_id u) (sender_id u))
    with (actor_state (db w) (chat_id u) (sender_id u)).
  rewrite Hm. reflexivity.
Qed.

Lemma pipeline_entry env u w :
  moderated env (db w) u ->
  handle_all_messages env u w =
  def (try_except
         (evaluate_rules env u (policy (db w) (chat_id u))
            (actor_state (db w) (chat_id u) (sender_id u)))
         (except_Exception log))
      (provisioned u w).
Proof. apply pipeline_entry_with. Qed.

(** The [try] block of 6.3 and 6.4 never lets an exception out, and what
    follows it is a [return]. *)
Lemma guarded_return env u g r notice action reason cause source w :
  (guarded env u g r notice action reason cause source;; return_) w
  = (@Returned unit, (guarded env u g r notice action reason cause source w).2).
Proof. unfold guarded. unfold_m. cases; reflexivity. Qed.

Lemma anti_flood_flood env u g r w :
  floods env g r u = true -> is_bot_admin env (chat_id u) = true ->
  anti_flood env u g r w =
  (Returned,
   (guarded env u g (counted_row env g u r) FloodWarnNotice "auto_warn_flood"
      (ReasonText "Flooding detected") "flood" "flooding"
      (with_row (chat_id u) (sender_id u) (counted_row env g u r) w)).2).
Proof.
  unfold floods, counted_row. intros Hf Hb.
  apply andb_prop in Hf as [Hf Hl].
  unfold anti_flood. rewrite Hf, Hb.
  change (message_count_in_interval (set_flood _ _ _)) with (flood_count env g r).
  rewrite Hl. cbv zeta. unfold when.
  erewrite bind_Normal by apply commit_eq.
  erewrite bind_Returned; [reflexivity|].
  apply guarded_return.
Qed.

Lemma anti_flood_quiet env u g r w :
  floods env g r u = false ->
  anti_flood env u g r w =
  (Normal (counted_row env g u r),
   if anti_flood_enabled g && Text.truthy (text u)
   then with_row (chat_id u) (sender_id u) (counted_row env g u r) w
   else w).
Proof.
  unfold floods, anti_flood, counted_row. intros Hf.
  destruct (anti_flood_enabled g && Text.truthy (text u)); [|reflexivity].
  cbn in Hf.
  change (message_count_in_interval (set_flood _ _ _)) with (flood_count env g r).
  rewrite Hf. reflexivity.
Qed.

(** The loop of 6.4 runs the body of the first word found in the text and
    nothing else. *)
Lemma for_each_first_match (ws : list string) (p : string -> bool)
    (body : string -> M unit) w :
  (∀ x w, p x = true -> ∃ w', body x w = (Returned, w')) ->
  for_each ws (λ x, when (p x) (body x)) w =
  match List.find p ws with
  | Some x => body x w
  | None => (Normal tt, w)
  end.
Proof.
  intros Hb. induction ws as [|x ws IH]; [reflexivity|].
  cbn [for_each List.find]. destruct (p x) eqn:Hp.
  - destruct (Hb x w Hp) as [w' Hw]. unfold when at 1.
    erewrite bind_Returned by apply Hw. by rewrite Hw.
  - unfold when at 1. erewrite bind_Normal by reflexivity. apply IH.
Qed.

Lemma forbidden_match_with lower env u g r w x :
  first_forbidden_with lower (words_of (db w) (chat_id u)) u = Some x ->
  is_bot_admin env (chat_id u) = true ->
  forbidden_words_filter_with lower env u g r w =
  (Returned,
   (guarded env u g r (WordWarnNotice x) "auto_warn_forbidden_word" (ReasonWord x)
      "forbidden_word" "forbidden words" w).2).
Proof.
  unfold first_forbidden_with, forbidden_words_filter_with. intros Hf Hb.
  destruct (Text.truthy (text u)); [|discriminate]. unfold when at 1.
  erewrite bind_Normal by apply get_forbidden_words_eq.
  rewrite (for_each_first_match _
             (λ x, Text.contains x (lower (default "" (text u))))).
  - rewrite Hf, Hb. apply guarded_return.
  - intros y w0 _. rewrite Hb. eexists. apply guarded_return.
Qed.

Lemma forbidden_match env u g r w x :
  first_forbidden (words_of (db w) (chat_id u)) u = Some x ->
  is_bot_admin env (chat_id u) = true ->
  forbidden_words_filter env u g r w =
  (Returned,
   (guarded env u g r (WordWarnNotice x) "auto_warn_forbidden_word" (ReasonWord x)
      "forbidden_word" "forbidden words" w).2).
Proof. apply forbidden_match_with. Qed.

Lemma forbidden_none env u g r w :
  first_forbidden (words_of (db w) (chat_id u)) u = None ->
  is_bot_admin env (chat_id u) = true ->
  forbidden_words_filter env u g r w = (Normal tt, w).
Proof.
  unfold first_forbidden, first_forbidden_with, forbidden_words_filter,
    forbidden_words_filter_with. intros Hf Hb.
  destruct (Text.truthy (text u)); [|reflexivity]. unfold when at 1.
  erewrite bind_Normal by apply get_forbidden_words_eq.
  rewrite (for_each_first_match _
             (λ x, Text.contains x (Text.lower (default "" (text u))))).
  - by rewrite Hf.
  - intros y w0 _. rewrite Hb. eexists. apply guarded_return.
Qed.

Lemma classify_Flood env d u :
  classify env d u = Flood ->
  floods env (policy d (chat_id u)) (actor_state d (chat_id u) (sender_id u)) u = true.
Proof.
  unfold classify, classify_with. destruct (floods _ _ _ _); [done|].
  destruct (first_forbidden_with _ _ _); [discriminate|].
  destruct (locked_media _ _); discriminate.
Qed.

Lemma classify_ForbiddenWordUsed_with lower env d u x :
  classify_with lower env d u = ForbiddenWordUsed x ->
  floods env (policy d (chat_id u)) (actor_state d (chat_id u) (sender_id u)) u = false
  ∧ first_forbidden_with lower (words_of d (chat_id u)) u = Some x.
Proof.
  unfold classify_with. destruct (floods _ _ _ _); [discriminate|].
  destruct (first_forbidden_with _ _ _); [intros [= ->]; done|].
  destruct (locked_media _ _); discriminate.
Qed.

Lemma classify_ForbiddenWordUsed env d u x :
  classify env d u = ForbiddenWordUsed x ->
  floods env (policy d (chat_id u)) (actor_state d (chat_id u) (sender_id u)) u = false
  ∧ first_forbidden (words_of d (chat_id u)) u = Some x.
Proof. apply classify_ForbiddenWordUsed_with. Qed.

Lemma classify_LockedMedia env d u k :
  classify env d u = LockedMedia k ->
  floods env (policy d (chat_id u)) (actor_state d (chat_id u) (sender_id u)) u = false
  ∧ first_forbidden (words_of d (chat_id u)) u = None
  ∧ locked_media (policy d (chat_id u)) u = Some k.
Proof.
  unfold classify, classify_with, first_forbidden.
  destruct (floods _ _ _ _); [discriminate|].
  destruct (first_forbidden_with _ _ _); [discriminate|].
  destruct (locked_media _ _); [intros [= ->]; done|discriminate].
Qed.

Lemma staged_quiet env u w :
  anti_flood_enabled (policy (db w) (chat_id u)) && Text.truthy (text u) = false ->
  staged env u w = provisioned u w.
Proof.
  intros H. unfold staged, counted_row. rewrite H.
  unfold with_row, provisioned, provision, with_group_users; cbn.
  by rewrite insert_insert_eq.
Qed.

(** A flood in a moderated message: the handler ends in the world the
    [try] block of 6.3 leaves. *)
Lemma pipeline_flood env u w :
  moderated env (db w) u ->
  classify env (db w) u = Flood ->
  step env (Message u) w =
  (guarded env u (policy (db w) (chat_id u))
     (counted_row env (policy (db w) (chat_id u)) u
        (actor_state (db w) (chat_id u) (sender_id u)))
     FloodWarnNotice "auto_warn_flood" (ReasonText "Flooding detected")
     "flood" "flooding" (staged env u w)).2.
Proof.
  intros Hm Hc. apply classify_Flood in Hc.
  unfold step, handle. rewrite (pipeline_entry _ _ _ Hm).
  destruct Hm as (_ & _ & _ & _ & _ & Hb).
  erewrite def_Returned; [reflexivity|].
  apply try_except_Returned. unfold evaluate_rules, evaluate_rules_with.
  apply bind_Returned. by apply anti_flood_flood.
Qed.

(** A forbidden word in a moderated message that is no flood: the handler
    ends in the world the [try] block of 6.4 leaves. *)
Lemma pipeline_word_with lower env u w x :
  moderated env (db w) u ->
  classify_with lower env (db w) u = ForbiddenWordUsed x ->
  (handle_all_messages_with lower env u w).2 =
  (guarded env u (policy (db w) (chat_id u))
     (counted_row env (policy (db w) (chat_id u)) u
        (actor_state (db w) (chat_id u) (sender_id u)))
     (WordWarnNotice x) "auto_warn_forbidden_word" (ReasonWord x)
     "forbidden_word" "forbidden words" (staged env u w)).2.
Proof.
  intros Hm Hc. apply classify_ForbiddenWordUsed_with in Hc as [Hf Hw].
  rewrite (pipeline_entry_with _ _ _ _ Hm).
  destruct Hm as (_ & _ & _ & _ & _ & Hb).
  erewrite def_Returned; [reflexivity|].
  apply try_except_Returned. unfold evaluate_rules_with.
  erewrite bind_Normal by (by apply anti_flood_quiet).
  apply bind_Returned.
  destruct (anti_flood_enabled _ && Text.truthy _) eqn:He.
  - by apply forbidden_match_with.
  - rewrite (staged_quiet _ _ _ He). by apply forbidden_match_with.
Qed.

Lemma pipeline_word env u w x :
  moderated env (db w) u ->
  classify env (db w) u = ForbiddenWordUsed x ->
  step env (Message u) w =
  (guarded env u (policy (db w) (chat_id u))
     (counted_row env (policy (db w) (chat_id u)) u
        (actor_state (db w) (chat_id u) (sender_id u)))
     (WordWarnNotice x) "auto_warn_forbidden_word" (ReasonWord x)
     "forbidden_word" "forbidden words" (staged env u w)).2.
Proof. apply pipeline_word_with. Qed.


(** ** What the [try] block of 6.3 and 6.4 does *)

Section Guarded.

Context (env : Env) (u : Update) (g : Group) (r : GroupUser)
        (notice : Z -> Notice) (action : string) (reason : Reason)
        (cause source : string) (w : World).

Let w' := (guarded env u g r notice action reason cause source w).2.
Let n := warns r + 1.
Let key := (chat_id u, sender_id u).

Hypothesis deleted : api env (DeleteMessage (chat_id u) (message_id u)) = Done.
Hypothesis warning : ∀ m, is_warn_notice (SendMessage (chat_id u) (notice m)) = true.

Ltac run_guarded :=
  pose proof (warning (warns r + 1)) as warned; cbn in warned;
  subst w' n key; unfold guarded, decision, count; unfold_m; cbn;
  rewrite deleted; cbn.

Lemma guarded_notices : count is_warn_notice w' = S (count is_warn_notice w).
Proof. run_guarded. cases; rewrite ?warned; reflexivity. Qed.

Lemma guarded_counts :
  api env (SendMessage (chat_id u) (notice n)) = Done ->
  (count is_ban w', count is_mute w') =
  match decision g n with
  | Ban => (S (count is_ban w), count is_mute w)
  | Mute => (count is_ban w, S (count is_mute w))
  | Warn => (count is_ban w, count is_mute w)
  end.
Proof.
  run_guarded. intros ->. cbn. cases; rewrite ?warned; reflexivity.
Qed.

Lemma guarded_counts_unsent :
  api env (SendMessage (chat_id u) (notice n)) ≠ Done ->
  (count is_ban w', count is_mute w') = (count is_ban w, count is_mute w).
Proof.
  run_guarded. intros H.
  destruct (api env (SendMessage _ _)) as [|k]; [done|].
  cbn. rewrite ?warned. reflexivity.
Qed.

Lemma guarded_row_below :
  decision g n = Warn ->
  group_users (db w') = <[key := set_warns n r]> (group_users (db w)).
Proof. run_guarded. cases; try discriminate; reflexivity. Qed.

Lemma guarded_row_banned :
  api env (SendMessage (chat_id u) (notice n)) = Done ->
  decision g n = Ban ->
  api env (BanChatMember (chat_id u) (sender_id u)) = Done ->
  group_users (db w') = delete key (group_users (db w)).
Proof.
  run_guarded. intros -> Hd ->. cbn. revert Hd.
  cases; try discriminate; intros _; cbn; apply delete_insert_eq.
Qed.



(** The restrict call fails after the warn was written. *)
Lemma guarded_mute_fails k :
  api env (SendMessage (chat_id u) (notice n)) = Done ->
  decision g n = Mute ->
  api env (mute_call (chat_id u) (sender_id u) (now env + mute_duration)) = Fails k ->
  db w' =
    with_admin_logs
      (admin_logs (db w) ++
       [mkAdminLog (chat_id u) (bot_id env) (Some (sender_id u)) action reason (utcnow env)])
      (with_group_users (<[key := set_warns n r]> (group_users (db w))) (db w))
  ∧ calls w' =
    (mute_call (chat_id u) (sender_id u) (now env + mute_duration), Fails k)
    :: (SendMessage (chat_id u) (notice n), Done)
    :: (DeleteMessage (chat_id u) (message_id u), Done) :: calls w.
Proof.
  run_guarded. intros -> Hd Hk. cbn. revert Hd.
  case_bool_decide; [discriminate|]. case_bool_decide; [|discriminate].
  intros _. rewrite Hk. cbn. done.
Qed.

End Guarded.

(** ** What [warn_command] does *)

Lemma policy_thresholds d g :
  from_option mute_on_warn_count 3 (groups d !! g) = mute_on_warn_count (policy d g)
  ∧ from_option ban_on_warn_count 5 (groups d !! g) = ban_on_warn_count (policy d g).
Proof. unfold policy. by destruct (groups d !! g). Qed.

Lemma extract_target_user_id_eq env c a w :
  target_of c = Some a -> extract_target_user_id env c w = (Normal (Some a), w).
Proof.
  unfold target_of, extract_target_user_id.
  destruct (cmd_reply_to c); [by intros [= ->]|]. by intros ->.
Qed.

(** A [/warn] that passes its checks writes the warn and goes on to the
    threshold check. *)
Lemma warn_command_eq env c a w :
  warnable env c a ->
  warn_command env c w =
  def (moderate_and_reply env c a (warned_row (db w) (cmd_chat_id c) a)
         (policy (db w) (cmd_chat_id c)))
      (warned env c a w).
Proof.
  intros (Ht & H0 & Ha & Hb & Hadm & Hi).
  destruct (policy_thresholds (db w) (cmd_chat_id c)) as [Hmu Hba].
  unfold warn_command. f_equal_def.
  erewrite bind_Normal by (by apply extract_target_user_id_eq).
  erewrite bind_Normal
    by (unfold require_target; by rewrite bool_decide_eq_false_2).
  rewrite (bool_decide_eq_false_2 (a = cmd_admin_id c)) by done.
  rewrite (bool_decide_eq_false_2 (a = bot_id env)) by done.
  rewrite Hadm. unfold get_user_info_from_telegram. rewrite Hi.
  rewrite (bool_decide_eq_false_2 (Some a = None)) by done.
  unfold when, get_or_create_user.
  do 5 (erewrite bind_Normal by reflexivity).
  erewrite bind_Normal by apply get_or_create_group_user_eq.
  erewrite bind_Normal by reflexivity.
  cbn [db with_row groups with_group_users].
  rewrite Hmu, Hba.
  erewrite bind_Normal by apply commit_eq.
  erewrite bind_Normal by reflexivity.
  rewrite with_row_twice. reflexivity.
Qed.

Lemma def_world (m : M unit) w : (def m w).2 = (m w).2.
Proof. unfold def. by destruct (m w) as [[| |] ?]. Qed.

Section Warned.

Context (env : Env) (c : Command) (a : Z) (r : GroupUser) (p : Group) (w : World).

Let w' := (moderate_and_reply env c a r p w).2.
Let n := warns r.
Let key := (cmd_chat_id c, a).

Ltac run_warned :=
  subst w' n key; unfold moderate_and_reply, decision, count; unfold_m; cbn.

Lemma warned_notices : count is_warn_notice w' = S (count is_warn_notice w).
Proof. run_warned. cases; reflexivity. Qed.

Lemma warned_counts :
  (count is_ban w', count is_mute w') =
  match decision p n with
  | Ban => (S (count is_ban w), count is_mute w)
  | Mute => (count is_ban w, S (count is_mute w))
  | Warn => (count is_ban w, count is_mute w)
  end.
Proof. run_warned. cases; reflexivity. Qed.

Lemma warned_row_below :
  decision p n = Warn -> group_users (db w') = group_users (db w).
Proof. run_warned. cases; try discriminate; reflexivity. Qed.

Lemma warned_row_banned :
  decision p n = Ban ->
  api env (BanChatMember (cmd_chat_id c) a) = Done ->
  group_users (db w') = delete key (group_users (db w)).
Proof.
  run_warned. intros Hd ->. cbn. revert Hd.
  cases; try discriminate; reflexivity.
Qed.

(** The restrict call fails after the warn was written. *)
Lemma warned_mute_fails k :
  decision p n = Mute ->
  api env (mute_call (cmd_chat_id c) a (now env + mute_duration)) = Fails k ->
  db w' = db w
  ∧ calls w' =
    (SendMessage (cmd_chat_id c) (WarnReply n "could not mute"),
     api env (SendMessage (cmd_chat_id c) (WarnReply n "could not mute")))
    :: (mute_call (cmd_chat_id c) a (now env + mute_duration), Fails k)
    :: calls w.
Proof.
  run_warned. intros Hd Hk. revert Hd.
  case_bool_decide; [discriminate|]. case_bool_decide; [|discriminate].
  intros _. rewrite Hk. cbn.
  destruct (api env (SendMessage _ _)); cbn; by destruct w.
Qed.

End Warned.

(** ** Events that add a warn *)

Lemma counted_row_fields env g u r :
  warns (counted_row env g u r) = warns r
  ∧ is_muted (counted_row env g u r) = is_muted r
  ∧ mute_until (counted_row env g u r) = mute_until r.
Proof. unfold counted_row. by destruct (_ && _). Qed.

Lemma decision_ban_first p n : ban_on_warn_count p ≤ n -> decision p n = Ban.
Proof. intros H. unfold decision. by rewrite bool_decide_eq_true_2. Qed.

Lemma action_class_Ban w w' :
  count is_ban w' = S (count is_ban w) -> count is_mute w' = count is_mute w ->
  action_class w w' = Some Ban.
Proof.
  intros Hb Hm. unfold action_class. rewrite Hb, Hm.
  replace (S (count is_ban w) - count is_ban w)%nat with 1%nat by lia.
  by rewrite Nat.sub_diag.
Qed.

Lemma action_class_Mute w w' :
  count is_ban w' = count is_ban w -> count is_mute w' = S (count is_mute w) ->
  action_class w w' = Some Mute.
Proof.
  intros Hb Hm. unfold action_class. rewrite Hb, Hm.
  replace (S (count is_mute w) - count is_mute w)%nat with 1%nat by lia.
  by rewrite Nat.sub_diag.
Qed.

Lemma action_class_Warn w w' :
  count is_ban w' = count is_ban w -> count is_mute w' = count is_mute w ->
  count is_warn_notice w' = S (count is_warn_notice w) ->
  action_class w w' = Some Warn.
Proof.
  intros Hb Hm Hn. unfold action_class. rewrite Hb, Hm, Hn.
  replace (S (count is_warn_notice w) - count is_warn_notice w)%nat with 1%nat by lia.
  by rewrite !Nat.sub_diag.
Qed.

Lemma action_class_decision w w' p n :
  count is_warn_notice w' = S (count is_warn_notice w) ->
  (count is_ban w', count is_mute w') =
    match decision p n with
    | Ban => (S (count is_ban w), count is_mute w)
    | Mute => (count is_ban w, S (count is_mute w))
    | Warn => (count is_ban w, count is_mute w)
    end ->
  action_class w w' = Some (decision p n).
Proof.
  intros Hn. destruct (decision p n); intros [= Hb Hm].
  - by apply action_class_Ban.
  - by apply action_class_Mute.
  - by apply action_class_Warn.
Qed.

Lemma count_staged p env u w : count p (staged env u w) = count p w.
Proof. reflexivity. Qed.

Lemma count_warned p env c a w : count p (warned env c a w) = count p w.
Proof. reflexivity. Qed.

(** The calls of an event that adds a warn: one warning, and the ban or
    mute the thresholds select once the check is reached. *)
Lemma warning_event_calls env ev w g a :
  warns_actor env (db w) ev g a ->
  count is_warn_notice (step env ev w) = S (count is_warn_notice w)
  ∧ (reaches_check env (db w) ev ->
     (count is_ban (step env ev w), count is_mute (step env ev w)) =
     match decision (policy (db w) g) (warns (actor_state (db w) g a) + 1) with
     | Ban => (S (count is_ban w), count is_mute w)
     | Mute => (count is_ban w, S (count is_mute w))
     | Warn => (count is_ban w, count is_mute w)
     end)
  ∧ (¬ reaches_check env (db w) ev ->
     (count is_ban (step env ev w), count is_mute (step env ev w)) =
     (count is_ban w, count is_mute w)).
Proof.
  destruct ev as [u|c|c|]; cbn [warns_actor reaches_check]; try done.
  - intros (<- & <- & Hm & Hd & Hc).
    set (p := policy (db w) (chat_id u)).
    set (r0 := actor_state (db w) (chat_id u) (sender_id u)).
    destruct (counted_row_fields env p u r0) as (Hw & _ & _).
    destruct Hc as [Hc|[x Hc]]; rewrite Hc; cbn [warning_notice].
    + rewrite (pipeline_flood _ _ _ Hm Hc). fold p r0. rewrite <- Hw.
      rewrite <- !(count_staged _ env u w).
      split; [by apply guarded_notices|]. split; intros Hn.
      * by apply guarded_counts.
      * by apply guarded_counts_unsent.
    + rewrite (pipeline_word _ _ _ _ Hm Hc). fold p r0. rewrite <- Hw.
      rewrite <- !(count_staged _ env u w).
      split; [by apply guarded_notices|]. split; intros Hn.
      * by apply guarded_counts.
      * by apply guarded_counts_unsent.
  - intros (<- & Hw). unfold step, handle.
    rewrite (warn_command_eq _ _ _ _ Hw), def_world.
    rewrite <- !(count_warned _ env c a w).
    change (warns (actor_state (db w) (cmd_chat_id c) a) + 1)
      with (warns (warned_row (db w) (cmd_chat_id c) a)).
    split; [apply warned_notices|]. split; [intros _|done].
    apply warned_counts.
Qed.

(** ** Senders the pipeline leaves alone *)

(** C10. A message of the bot itself, of the configured bot owner, of a
    group administrator or of the group owner leaves the world as it was:
    no row is created or changed (no flood counter, no warn), nothing is
    written to the log, and no call (delete, mute, ban, notice) is made,
    whatever the message and the group's settings. *)
Theorem C10_exempt_senders_untouched env u w :
  exempt env u -> handle_all_messages env u w = (Normal tt, w).
Proof.
  intros H. unfold handle_all_messages, handle_all_messages_with.
  assert (bool_decide (sender_id u = bot_id env)
          || is_user_admin_or_owner env (chat_id u) (sender_id u) = true) as ->.
  { destruct H as [H|[H|[H|H]]].
    - by rewrite bool_decide_eq_true_2.
    - rewrite is_user_admin_or_owner_exempt by auto. apply orb_true_r.
    - rewrite is_user_admin_or_owner_exempt by eauto. apply orb_true_r.
    - rewrite is_user_admin_or_owner_exempt by eauto. apply orb_true_r. }
  reflexivity.
Qed.

Lemma C10_exempt_senders_untouched_witness :
  exempt Scenario.env (Scenario.text_message Scenario.admin 1 "spam spam spam")
  ∧ handle_all_messages Scenario.env
      (Scenario.text_message Scenario.admin 1 "spam spam spam")
      (Scenario.world_of (Scenario.db_of new_Group [] ["spam"]))
    = (Normal tt, Scenario.world_of (Scenario.db_of new_Group [] ["spam"])).
Proof.
  assert (exempt Scenario.env (Scenario.text_message Scenario.admin 1 "spam spam spam")) as H.
  { right. right. left. reflexivity. }
  split; [exact H|]. exact (C10_exempt_senders_untouched _ _ _ H).
Defined.

(** ** Locked media *)

Lemma warns_staged env u w g a :
  warns (actor_state (db (staged env u w)) g a) = warns (actor_state (db w) g a).
Proof.
  unfold staged, actor_state. cbn.
  destruct (decide ((chat_id u, sender_id u) = (g, a))) as [[= <- <-]|].
  - rewrite lookup_insert_eq. cbn.
    by destruct (counted_row_fields env (policy (db w) (chat_id u)) u
                   (default new_GroupUser (group_users (db w) !! (chat_id u, sender_id u))))
      as (-> & _ & _).
  - by rewrite !lookup_insert_ne.
Qed.

(** Locked media in a moderated message that is no flood and has no
    forbidden word: the handler tries to delete the message and, when that
    succeeds, logs the deletion; it does nothing else. *)
Lemma pipeline_locked env u w kind :
  moderated env (db w) u ->
  classify env (db w) u = LockedMedia kind ->
  step env (Message u) w =
  match api env (DeleteMessage (chat_id u) (message_id u)) with
  | Done =>
      {| db :=
           with_admin_logs
             (admin_logs (db w) ++
              [mkAdminLog (chat_id u) (bot_id env) (Some (sender_id u))
                 "delete_locked_media" (ReasonText kind) (utcnow env)])
             (db (staged env u w));
         calls := (DeleteMessage (chat_id u) (message_id u), Done) :: calls w |}
  | Fails k =>
      {| db := db (staged env u w);
         calls := (DeleteMessage (chat_id u) (message_id u), Fails k) :: calls w |}
  end.
Proof.
  intros Hm Hc. apply classify_LockedMedia in Hc as (Hf & Hw & Hl).
  unfold step, handle. rewrite (pipeline_entry _ _ _ Hm), def_world.
  destruct Hm as (_ & _ & _ & _ & _ & Hb).
  unfold evaluate_rules, evaluate_rules_with, try_except.
  unfold mbind at 1, M_bind at 1.
  rewrite (anti_flood_quiet _ _ _ _ _ Hf).
  unfold mbind at 1, M_bind at 1.
  assert (∀ w1, words_of (db w1) (chat_id u) = words_of (db w) (chat_id u) ->
                forbidden_words_filter_with Text.lower env u (policy (db w) (chat_id u))
                  (counted_row env (policy (db w) (chat_id u)) u
                     (actor_state (db w) (chat_id u) (sender_id u))) w1
                = (Normal tt, w1)) as Hrest.
  { intros w1 Hw1. apply forbidden_none; [|done]. by rewrite Hw1. }
  assert (staged env u w =
          if anti_flood_enabled (policy (db w) (chat_id u)) && Text.truthy (text u)
          then with_row (chat_id u) (sender_id u)
                 (counted_row env (policy (db w) (chat_id u)) u
                    (actor_state (db w) (chat_id u) (sender_id u)))
                 (provisioned u w)
          else provisioned u w) as Hst.
  { destruct (anti_flood_enabled _ && Text.truthy _) eqn:He; [done|].
    by apply staged_quiet. }
  rewrite <- Hst. rewrite Hrest by done.
  unfold media_locks. rewrite Hb, Hl. unfold_m.
  by destruct (api env (DeleteMessage _ _)).
Qed.

(** So a locked medium is only deleted: the one call is the deletion, no
    warning, mute or ban is made, and nobody's warn count changes. *)
Lemma locked_media_only_deleted env u w kind :
  moderated env (db w) u ->
  classify env (db w) u = LockedMedia kind ->
  calls (step env (Message u) w) =
    (DeleteMessage (chat_id u) (message_id u),
     api env (DeleteMessage (chat_id u) (message_id u))) :: calls w
  ∧ action_class w (step env (Message u) w) = None
  ∧ ∀ g a, warns (actor_state (db (step env (Message u) w)) g a)
           = warns (actor_state (db w) g a).
Proof.
  intros Hm Hc. rewrite (pipeline_locked _ _ _ _ Hm Hc).
  destruct (api env (DeleteMessage _ _)); cbn.
  - split; [done|]. split.
    + unfold action_class, count. cbn. by rewrite !Nat.sub_diag.
    + intros g a. apply (warns_staged env u w g a).
  - split; [done|]. split.
    + unfold action_class, count. cbn. by rewrite !Nat.sub_diag.
    + intros g a. apply (warns_staged env u w g a).
Qed.

(** ** One class of action per warn *)

Lemma classic_reaches env d ev : reaches_check env d ev ∨ ¬ reaches_check env d ev.
Proof.
  destruct ev as [u|c|c|]; cbn; auto.
  destruct (warning_notice _ _); [|auto].
  destruct (decide (api env (SendMessage (chat_id u) n) = Done)); auto.
Qed.

(** C1, as the code has it.  An event that adds a warn to an actor (a flood
    or a forbidden word in a moderated message that the bot deletes, or a
    [/warn] that passes its checks) results in exactly one class of action.
    Once the threshold check is reached, the class is the one the
    thresholds select for the new count, the ban threshold first: a count
    that is at least the ban threshold gives one ban call and no mute call,
    also when the mute threshold is reached in the same step or is the
    greater of the two.  When the check is not reached, because the warning
    notice of the pipeline could not be sent, the class is Warn.  A locked
    medium in a moderated message is a violation that gives none of the
    three classes: the one call is the deletion of the message, and
    nobody's warn count changes. *)
Theorem C1_one_action_class :
  (∀ env ev w g a,
     warns_actor env (db w) ev g a ->
     let n := warns (actor_state (db w) g a) + 1 in
     let p := policy (db w) g in
     is_Some (action_class w (step env ev w))
     ∧ (reaches_check env (db w) ev ->
        action_class w (step env ev w) = Some (decision p n)
        ∧ (ban_on_warn_count p ≤ n ->
           count is_ban (step env ev w) = S (count is_ban w)
           ∧ count is_mute (step env ev w) = count is_mute w))
     ∧ (¬ reaches_check env (db w) ev ->
        action_class w (step env ev w) = Some Warn))
  ∧ (∀ env u w kind,
       moderated env (db w) u ->
       classify env (db w) u = LockedMedia kind ->
       calls (step env (Message u) w) =
         (DeleteMessage (chat_id u) (message_id u),
          api env (DeleteMessage (chat_id u) (message_id u))) :: calls w
       ∧ action_class w (step env (Message u) w) = None
       ∧ ∀ g a, warns (actor_state (db (step env (Message u) w)) g a)
                = warns (actor_state (db w) g a)).
Proof.
  split; [|apply locked_media_only_deleted].
  intros env ev w g a H n p.
  destruct (warning_event_calls _ _ _ _ _ H) as (Hn & Hr & Hu).
  fold n p in Hr.
  assert (reaches_check env (db w) ev ->
          action_class w (step env ev w) = Some (decision p n)) as Hc.
  { intros Hreach. apply action_class_decision; auto. }
  assert (¬ reaches_check env (db w) ev ->
          action_class w (step env ev w) = Some Warn) as Hw.
  { intros Hreach. specialize (Hu Hreach). injection Hu as Hb Hm.
    by rewrite (action_class_Warn _ _ Hb Hm Hn). }
  split; [|split].
  - destruct (classic_reaches env (db w) ev) as [Hreach|Hreach].
    + rewrite Hc by done. eauto.
    + rewrite Hw by done. eauto.
  - intros Hreach. split; [auto|]. intros Hban.
    specialize (Hr Hreach). rewrite (decision_ban_first _ _ Hban) in Hr.
    by injection Hr.
  - exact Hw.
Qed.

Lemma C1_one_action_class_witness :
  warns_actor Scenario.env (db Scenario.four_warns)
    (Message (Scenario.text_message Scenario.member 1 "this is SPAM"))
    Scenario.chat Scenario.member
  ∧ action_class Scenario.four_warns
      (step Scenario.env
         (Message (Scenario.text_message Scenario.member 1 "this is SPAM"))
         Scenario.four_warns)
    = Some Ban
  ∧ moderated Scenario.env (db Scenario.locked_group)
      (Scenario.photo_message Scenario.member 1)
  ∧ action_class Scenario.locked_group
      (step Scenario.env (Message (Scenario.photo_message Scenario.member 1))
         Scenario.locked_group)
    = None.
Proof.
  assert (warns_actor Scenario.env (db Scenario.four_warns)
            (Message (Scenario.text_message Scenario.member 1 "this is SPAM"))
            Scenario.chat Scenario.member) as H.
  { cbn. unfold moderated. repeat split; try done.
    right. exists "spam". vm_compute. reflexivity. }
  assert (moderated Scenario.env (db Scenario.locked_group)
            (Scenario.photo_message Scenario.member 1)) as Hm.
  { unfold moderated. repeat split; done. }
  split; [exact H|]. split.
  - destruct (proj1 C1_one_action_class _ _ _ _ _ H) as (_ & Hr & _).
    destruct Hr as [Hc _]; [vm_compute; reflexivity|].
    rewrite Hc. vm_compute. reflexivity.
  - split; [exact Hm|].
    destruct (proj2 C1_one_action_class Scenario.env
                (Scenario.photo_message Scenario.member 1) Scenario.locked_group
                "Photo locked" Hm ltac:(vm_compute; reflexivity)) as (_ & Hnone & _).
    exact Hnone.
Defined.

(** C1 as stated fails on a locked photo: the message is a violation of the
    group's policy, yet the handler only deletes it.  No warning is posted,
    the warn count stays 0, and no mute or ban is considered: none of the
    three classes of action results. *)
Lemma C1_counterexample_locked_photo :
  moderated Scenario.env (db Scenario.locked_group)
    (Scenario.photo_message Scenario.member 1)
  ∧ classify Scenario.env (db Scenario.locked_group)
      (Scenario.photo_message Scenario.member 1)
    = LockedMedia "Photo locked"
  ∧ calls (step Scenario.env (Message (Scenario.photo_message Scenario.member 1))
             Scenario.locked_group)
    = [(DeleteMessage Scenario.chat 1, Done)]
  ∧ action_class Scenario.locked_group
      (step Scenario.env (Message (Scenario.photo_message Scenario.member 1))
         Scenario.locked_group)
    = None
  ∧ warns (actor_state
             (db (step Scenario.env (Message (Scenario.photo_message Scenario.member 1))
                    Scenario.locked_group))
             Scenario.chat Scenario.member)
    = 0.
Proof.
  split; [unfold moderated; repeat split; done|].
  repeat split; vm_compute; reflexivity.
Qed.

(** ** Counting warns *)

(** An event that adds a warn and stays below the thresholds leaves the
    actor's row with one warn more. *)
Lemma warning_event_row env ev w g a :
  warns_actor env (db w) ev g a ->
  decision (policy (db w) g) (warns (actor_state (db w) g a) + 1) = Warn ->
  warns (actor_state (db (step env ev w)) g a) = warns (actor_state (db w) g a) + 1.
Proof.
  destruct ev as [u|c|c|]; cbn [warns_actor]; try done.
  - intros (<- & <- & Hm & Hd & Hc).
    set (p := policy (db w) (chat_id u)).
    set (r0 := actor_state (db w) (chat_id u) (sender_id u)).
    destruct (counted_row_fields env p u r0) as (Hw & _ & _).
    rewrite <- Hw. intros Hdec.
    assert (∀ x, step env (Message u) w = x ->
                 group_users (db x) = <[(chat_id u, sender_id u) :=
                   set_warns (warns (counted_row env p u r0) + 1) (counted_row env p u r0)]>
                   (group_users (db (staged env u w))) ->
                 warns (actor_state (db x) (chat_id u) (sender_id u))
                 = warns (counted_row env p u r0) + 1) as Hrow.
    { intros x _ Hx. unfold actor_state. by rewrite Hx, lookup_insert_eq. }
    destruct Hc as [Hc|[x Hc]].
    + apply (Hrow _ eq_refl). rewrite (pipeline_flood _ _ _ Hm Hc).
      by apply guarded_row_below.
    + apply (Hrow _ eq_refl). rewrite (pipeline_word _ _ _ _ Hm Hc).
      by apply guarded_row_below.
  - intros (<- & Hw) Hdec. unfold step, handle.
    rewrite (warn_command_eq _ _ _ _ Hw), def_world.
    unfold actor_state at 1. rewrite warned_row_below by done.
    cbn. by rewrite lookup_insert_eq.
Qed.

(** C4, as the code has it.  A run of [N] events that each add a warn to
    the same actor (floods and forbidden words in moderated messages that
    the bot deletes, [/warn] commands that pass their checks), none of
    which reaches the mute or the ban threshold, adds [N] to the actor's
    warn count; for an actor without a row the count is [N] afterwards.
    A locked medium in a moderated message leaves every warn count as it
    is. *)
Theorem C4_warns_accumulate :
  (∀ g a evs w,
     warns_below_thresholds g a evs w ->
     warns (actor_state (db (run evs w)) g a)
     = warns (actor_state (db w) g a) + Z.of_nat (List.length evs))
  ∧ (∀ env u w kind,
       moderated env (db w) u ->
       classify env (db w) u = LockedMedia kind ->
       ∀ g a, warns (actor_state (db (step env (Message u) w)) g a)
              = warns (actor_state (db w) g a)).
Proof.
  split.
  - intros g a evs. induction evs as [|[env ev] evs IH]; intros w.
    + intros _. cbn. lia.
    + intros (Hw & Hd & Hrest). cbn [run List.length].
      rewrite (IH _ Hrest), (warning_event_row _ _ _ _ _ Hw Hd). lia.
  - intros env u w kind Hm Hc.
    by destruct (locked_media_only_deleted env u w kind Hm Hc) as (_ & _ & Hw).
Qed.

Lemma C4_warns_accumulate_witness :
  warns_below_thresholds Scenario.chat Scenario.member
    Scenario.word_then_warn Scenario.fresh_group
  ∧ warns (actor_state (db (run Scenario.word_then_warn Scenario.fresh_group))
             Scenario.chat Scenario.member)
    = 2
  ∧ moderated Scenario.env (db Scenario.locked_group)
      (Scenario.photo_message Scenario.member 1)
  ∧ warns (actor_state
             (db (step Scenario.env (Message (Scenario.photo_message Scenario.member 1))
                    Scenario.locked_group))
             Scenario.chat Scenario.member)
    = 0.
Proof.
  assert (warns_below_thresholds Scenario.chat Scenario.member
            Scenario.word_then_warn Scenario.fresh_group) as H.
  { cbn [warns_below_thresholds Scenario.word_then_warn]. split.
    { cbn. unfold moderated. repeat split; try done.
      right. exists "spam". vm_compute. reflexivity. }
    split; [vm_compute; reflexivity|]. split.
    { cbn. unfold warnable. repeat split; done. }
    split; [vm_compute; reflexivity|]. exact I. }
  assert (moderated Scenario.env (db Scenario.locked_group)
            (Scenario.photo_message Scenario.member 1)) as Hm.
  { unfold moderated. repeat split; done. }
  split; [exact H|]. split.
  - rewrite (proj1 C4_warns_accumulate _ _ _ _ H). vm_compute. reflexivity.
  - split; [exact Hm|].
    rewrite (proj2 C4_warns_accumulate Scenario.env
               (Scenario.photo_message Scenario.member 1) Scenario.locked_group
               "Photo locked" Hm ltac:(vm_compute; reflexivity)).
    vm_compute. reflexivity.
Defined.

(** C4 as stated fails on locked media: two photos in a group that locks
    photos are two violations, both deleted, and the sender's warn count
    is 0 afterwards, not 2. *)
Lemma C4_counterexample_locked_photos :
  classify (Scenario.env_at (Scenario.seconds 0)) (db Scenario.locked_group)
    (Scenario.photo_message Scenario.member 1)
  = LockedMedia "Photo locked"
  ∧ classify (Scenario.env_at (Scenario.seconds 60))
      (db (step (Scenario.env_at (Scenario.seconds 0))
             (Message (Scenario.photo_message Scenario.member 1))
             Scenario.locked_group))
      (Scenario.photo_message Scenario.member 2)
    = LockedMedia "Photo locked"
  ∧ calls (run Scenario.two_photos Scenario.locked_group)
    = [(DeleteMessage Scenario.chat 2, Done); (DeleteMessage Scenario.chat 1, Done)]
  ∧ warns (actor_state (db (run Scenario.two_photos Scenario.locked_group))
             Scenario.chat Scenario.member)
    = 0.
Proof. repeat split; vm_compute; reflexivity. Qed.

(** ** A mute that fails *)

(** C6, as the code has it.  When the warn of an event reaches the mute
    threshold and the restrict call raises, the actor's row keeps the new
    warn count and its mute fields are not touched; the log gains the
    record of the warn and nothing else; in the pipeline the failed call
    is the last thing the handler does, and [/warn] ends with its reply,
    which says that the user could not be muted. *)
Theorem C6_failed_mute env ev w g a k :
  warns_actor env (db w) ev g a ->
  reaches_check env (db w) ev ->
  decision (policy (db w) g) (warns (actor_state (db w) g a) + 1) = Mute ->
  api env (mute_call g a (now env + mute_duration)) = Fails k ->
  (∃ r', group_users (db (step env ev w)) !! (g, a) = Some r'
         ∧ warns r' = warns (actor_state (db w) g a) + 1
         ∧ is_muted r' = is_muted (actor_state (db w) g a)
         ∧ mute_until r' = mute_until (actor_state (db w) g a))
  ∧ (∃ record, admin_logs (db (step env ev w)) = (admin_logs (db w) ++ [record])%list
               ∧ log_action record ∈ ["warn"; "auto_warn_flood"; "auto_warn_forbidden_word"])
  ∧ match ev with
    | Message _ =>
        head (calls (step env ev w))
        = Some (mute_call g a (now env + mute_duration), Fails k)
    | _ =>
        ∃ o, calls (step env ev w) =
             (SendMessage g (WarnReply (warns (actor_state (db w) g a) + 1) "could not mute"), o)
             :: (mute_call g a (now env + mute_duration), Fails k) :: calls w
    end.
Proof.
  destruct ev as [u|c|c|]; cbn [warns_actor reaches_check]; try done.
  - intros (<- & <- & Hm & Hd & Hc) Hreach.
    set (p := policy (db w) (chat_id u)).
    set (r0 := actor_state (db w) (chat_id u) (sender_id u)).
    destruct (counted_row_fields env p u r0) as (Hw & Hmu & Hun).
    rewrite <- Hw. intros Hdec Hk.
    assert (∀ notice action reason cause source,
              (∀ m, is_warn_notice (SendMessage (chat_id u) (notice m)) = true) ->
              api env (SendMessage (chat_id u) (notice (warns (counted_row env p u r0) + 1))) = Done ->
              log_action (mkAdminLog (chat_id u) (bot_id env) (Some (sender_id u)) action reason (utcnow env))
                ∈ ["warn"; "auto_warn_flood"; "auto_warn_forbidden_word"] ->
              let w' := (guarded env u p (counted_row env p u r0) notice action reason
                           cause source (staged env u w)).2 in
              (∃ r', group_users (db w') !! (chat_id u, sender_id u) = Some r'
                     ∧ warns r' = warns (counted_row env p u r0) + 1
                     ∧ is_muted r' = is_muted r0 ∧ mute_until r' = mute_until r0)
              ∧ (∃ record, admin_logs (db w') = (admin_logs (db w) ++ [record])%list
                           ∧ log_action record ∈ ["warn"; "auto_warn_flood"; "auto_warn_forbidden_word"])
              ∧ head (calls w')
                = Some (mute_call (chat_id u) (sender_id u) (now env + mute_duration), Fails k)) as Hgen.
    { intros notice action reason cause source Hwarn Hn Hact w'.
      destruct (guarded_mute_fails env u p (counted_row env p u r0) notice action reason
                  cause source (staged env u w) Hd Hwarn k Hn Hdec Hk) as [Hdb Hcalls].
      fold w' in Hdb, Hcalls. rewrite Hdb, Hcalls. cbn. split; [|split].
      - eexists. rewrite lookup_insert_eq. split; [reflexivity|]. cbn. by rewrite Hmu, Hun.
      - eexists. split; [reflexivity|]. exact Hact.
      - reflexivity. }
    destruct Hc as [Hc|[x Hc]]; rewrite Hc in Hreach; cbn [warning_notice] in Hreach;
      fold r0 in Hreach; rewrite <- Hw in Hreach.
    + rewrite (pipeline_flood _ _ _ Hm Hc). apply Hgen; [done|done|]. cbn. repeat constructor.
    + rewrite (pipeline_word _ _ _ _ Hm Hc). apply Hgen; [done|done|]. cbn. repeat constructor.
  - intros (<- & Hw) _ Hdec Hk. unfold step, handle.
    rewrite (warn_command_eq _ _ _ _ Hw), def_world.
    destruct (warned_mute_fails env c a (warned_row (db w) (cmd_chat_id c) a)
                (policy (db w) (cmd_chat_id c)) (warned env c a w) k Hdec Hk)
      as [Hdb Hcalls].
    rewrite Hdb, Hcalls. cbn. split; [|split].
    + eexists. rewrite lookup_insert_eq. done.
    + eexists. split; [reflexivity|]. cbn. repeat constructor.
    + eexists. reflexivity.
Qed.

Lemma C6_failed_mute_witness :
  warns_actor (Scenario.env_restrict_fails BadRequest 0) (db Scenario.two_warns)
    (WarnCommand (Scenario.command_on Scenario.member)) Scenario.chat Scenario.member
  ∧ ∃ r', group_users
            (db (step (Scenario.env_restrict_fails BadRequest 0)
                   (WarnCommand (Scenario.command_on Scenario.member))
                   Scenario.two_warns))
          !! (Scenario.chat, Scenario.member) = Some r'
          ∧ warns r' = 3 ∧ is_muted r' = false ∧ mute_until r' = None.
Proof.
  assert (warns_actor (Scenario.env_restrict_fails BadRequest 0) (db Scenario.two_warns)
            (WarnCommand (Scenario.command_on Scenario.member))
            Scenario.chat Scenario.member) as H.
  { cbn. unfold warnable. repeat split; done. }
  split; [exact H|].
  destruct (C6_failed_mute _ _ _ _ _ BadRequest H) as [Hrow _];
    [exact I|vm_compute; reflexivity|vm_compute; reflexivity|].
  exact Hrow.
Defined.

(** C6 as stated fails in the pipeline: a forbidden word takes a member
    from two warns to three, the mute threshold, and the restrict call is
    refused.  The row keeps three warns and is not muted, as the claim
    says; but the log holds the record of the warn only (no record of the
    attempt, and no record says whether anything succeeded), and after the
    refused call nothing more is sent to the group. *)
Lemma C6_counterexample_no_record_no_notice :
  group_users
    (db (step (Scenario.env_restrict_fails BadRequest 0)
           (Message (Scenario.text_message Scenario.member 1 "this is SPAM"))
           Scenario.two_warns))
  !! (Scenario.chat, Scenario.member)
  = Some (set_flood (Some 0) 1 (Scenario.with_warns 3))
  ∧ log_action <$>
      admin_logs
        (db (step (Scenario.env_restrict_fails BadRequest 0)
               (Message (Scenario.text_message Scenario.member 1 "this is SPAM"))
               Scenario.two_warns))
    = ["auto_warn_forbidden_word"]
  ∧ calls (step (Scenario.env_restrict_fails BadRequest 0)
             (Message (Scenario.text_message Scenario.member 1 "this is SPAM"))
             Scenario.two_warns)
    = [(mute_call Scenario.chat Scenario.member (0 + mute_duration), Fails BadRequest);
       (SendMessage Scenario.chat (WordWarnNotice "spam" 3), Done);
       (DeleteMessage Scenario.chat 1, Done)].
Proof. repeat split; vm_compute; reflexivity. Qed.

(** ** Bans and the actor's row *)

(** An automatic ban that goes through removes the row, and the next
    [get_or_create_group_user] hands out a fresh one. *)
Lemma automatic_ban_clears_state env ev w g a :
  warns_actor env (db w) ev g a ->
  reaches_check env (db w) ev ->
  decision (policy (db w) g) (warns (actor_state (db w) g a) + 1) = Ban ->
  api env (BanChatMember g a) = Done ->
  group_users (db (step env ev w)) !! (g, a) = None
  ∧ (get_or_create_group_user g a (step env ev w)).1 = Normal new_GroupUser.
Proof.
  intros Hw Hreach Hdec Hban.
  assert (group_users (db (step env ev w)) !! (g, a) = None) as Hnone;
    [|split; [done|by apply get_or_create_after_delete]].
  destruct ev as [u|c|c|]; cbn [warns_actor reaches_check] in *; try done.
  - destruct Hw as (<- & <- & Hm & Hd & Hc).
    set (p := policy (db w) (chat_id u)) in *.
    set (r0 := actor_state (db w) (chat_id u) (sender_id u)) in *.
    destruct (counted_row_fields env p u r0) as (Hw & _ & _).
    rewrite <- Hw in Hdec, Hreach.
    destruct Hc as [Hc|[x Hc]]; rewrite Hc in Hreach; cbn [warning_notice] in Hreach.
    + rewrite (pipeline_flood _ _ _ Hm Hc).
      rewrite guarded_row_banned by done. apply lookup_delete_eq.
    + rewrite (pipeline_word _ _ _ _ Hm Hc).
      rewrite guarded_row_banned by done. apply lookup_delete_eq.
  - destruct Hw as (<- & Hw). unfold step, handle.
    rewrite (warn_command_eq _ _ _ _ Hw), def_world.
    rewrite warned_row_banned by done. apply lookup_delete_eq.
Qed.

(** The checks of [ban_command] passed, the command starts with the ban
    call. *)
Lemma ban_command_eq env c a w :
  bannable env c a ->
  ban_command env c w =
  def (try_except
         (await env (BanChatMember (cmd_chat_id c) a);;
          get_or_create_user (get_user_info_from_telegram env a);;
          group_user ← query_group_user (cmd_chat_id c) a;
          match group_user with
          | Some _ => delete_group_user (cmd_chat_id c) a
          | None => mret tt
          end;;
          reply env c BanReply;;
          log_admin_action env (cmd_chat_id c) (cmd_admin_id c) "ban" (Some a)
            (ReasonText (cmd_reason c)))
         (except_TelegramError (reply env c (TextReply "could not ban"))))
      w.
Proof.
  intros (Ht & H0 & Ha & Hb & Hadm).
  unfold ban_command. f_equal_def.
  erewrite bind_Normal by (by apply extract_target_user_id_eq).
  erewrite bind_Normal
    by (unfold require_target; by rewrite bool_decide_eq_false_2).
  rewrite (bool_decide_eq_false_2 (a = cmd_admin_id c)) by done.
  rewrite (bool_decide_eq_false_2 (a = bot_id env)) by done.
  rewrite Hadm. unfold when.
  do 3 (erewrite bind_Normal by reflexivity). reflexivity.
Qed.

(** A manual ban that goes through removes the row when the user's
    information can be fetched. *)
Lemma ban_command_clears_state env c a w :
  bannable env c a ->
  api env (BanChatMember (cmd_chat_id c) a) = Done ->
  user_info env a = true ->
  group_users (db (step env (BanCommand c) w)) !! (cmd_chat_id c, a) = None.
Proof.
  intros Hb Hban Hi. unfold step, handle.
  rewrite (ban_command_eq _ _ _ _ Hb), def_world.
  unfold get_user_info_from_telegram, get_or_create_user. rewrite Hi.
  unfold_m. rewrite Hban. cbn.
  destruct (group_users (db w) !! (cmd_chat_id c, a)) eqn:Hrow; cbn;
    cases; cbn; rewrite ?lookup_delete_eq; done.
Qed.

(** When it cannot, the handler stops with a [TypeError] right after the
    ban call, and the database is as it was. *)
Lemma ban_command_without_user_info env c a w :
  bannable env c a ->
  api env (BanChatMember (cmd_chat_id c) a) = Done ->
  user_info env a = false ->
  ban_command env c w =
  (Raised TypeError,
   {| db := db w; calls := (BanChatMember (cmd_chat_id c) a, Done) :: calls w |}).
Proof.
  intros Hb Hban Hi. rewrite (ban_command_eq _ _ _ _ Hb).
  unfold get_user_info_from_telegram, get_or_create_user. rewrite Hi.
  unfold_m. rewrite Hban. reflexivity.
Qed.

(** C2 at the failing input.  [/ban] on a member with four warns whose
    information [get_user_info_from_telegram] cannot fetch: the ban call
    succeeds, the handler then raises, the row stays, and the next
    [get_or_create_group_user] hands out the old row with its four warns. *)
Theorem C2_ban_without_user_info_keeps_state :
  ban_command (Scenario.env_no_user_info 0) (Scenario.command_on Scenario.member)
    Scenario.four_warns
  = (Raised TypeError,
     {| db := db Scenario.four_warns;
        calls := [(BanChatMember Scenario.chat Scenario.member, Done)] |})
  ∧ (get_or_create_group_user Scenario.chat Scenario.member
       (step (Scenario.env_no_user_info 0)
          (BanCommand (Scenario.command_on Scenario.member)) Scenario.four_warns)).1
    = Normal (Scenario.with_warns 4).
Proof.
  split; vm_compute; reflexivity.
Qed.

(** ** Forbidden words *)


Lemma lower_ascii_idempotent c : Text.lower_ascii (Text.lower_ascii c) = Text.lower_ascii c.
Proof. by destruct c as [[] [] [] [] [] [] [] []]. Qed.

(** [lower] is a case folding: applying it twice changes nothing. *)
Lemma lower_idempotent s : Text.lower (Text.lower s) = Text.lower s.
Proof.
  induction s as [|c s IH]; [done|]. cbn. by rewrite lower_ascii_idempotent, IH.
Qed.

(** [add_forbidden_word] stores the case-folded word. *)
Lemma add_forbidden_word_stored_with lower g x w :
  lower x ∈ words_of (db (add_forbidden_word_with lower g x w).2) g.
Proof.
  unfold add_forbidden_word_with, words_of. unfold_m. cbn.
  destruct (existsb _ _) eqn:He; cbn.
  - apply existsb_exists in He as (fw & Hin & Hfw).
    apply andb_prop in Hfw as [Hg Hx].
    apply bool_decide_eq_true in Hg, Hx. rewrite <- Hx.
    apply list_elem_of_fmap. exists fw. split; [done|].
    apply list_elem_of_filter. split; [done|]. by apply list_elem_of_In.
  - apply list_elem_of_fmap. exists (mkForbiddenWord g (lower x)).
    split; [done|]. apply list_elem_of_filter. split; [done|].
    apply elem_of_app. right. constructor.
Qed.

Lemma add_forbidden_word_stored g x w :
  Text.lower x ∈ words_of (db (add_forbidden_word g x w).2) g.
Proof. apply add_forbidden_word_stored_with. Qed.


Lemma first_forbidden_case_insensitive ws u u' t t' :
  text u = Some t -> text u' = Some t' -> Text.lower t = Text.lower t' ->
  first_forbidden ws u = first_forbidden ws u'.
Proof.
  intros Hu Hu' Hl. unfold first_forbidden, first_forbidden_with. rewrite Hu, Hu'.
  destruct t, t'; try done; try discriminate Hl.
  cbn -[Text.lower Text.contains]. by rewrite Hl.
Qed.




(** ** The flood counter *)

(** C3, as the code has it.  For a text message in a group with the
    anti-flood switch on, the count becomes the old count plus one when a
    time is stored and [now] is less than [anti_flood_time] seconds after
    it, and 1 otherwise; the stored time becomes [now] in both cases (it is
    the time of the sender's last message, not the start of a window); the
    row is written; and the message is handled as a flood exactly when the
    new count exceeds [anti_flood_limit]. *)
Theorem C3_flood_counter env u g r w :
  anti_flood_enabled g = true -> Text.truthy (text u) = true ->
  let n :=
    match last_message_time r with
    | Some last =>
        if bool_decide (utcnow env - last < anti_flood_time g * 1000000)
        then message_count_in_interval r + 1
        else 1
    | None => 1
    end in
  let r' := set_flood (Some (utcnow env)) n r in
  let w1 := with_row (chat_id u) (sender_id u) r' w in
  (floods env g r u = true ↔ anti_flood_limit g < n)
  ∧ (¬ anti_flood_limit g < n -> anti_flood env u g r w = (Normal r', w1))
  ∧ (anti_flood_limit g < n ->
     anti_flood env u g r w =
     (Returned,
      if is_bot_admin env (chat_id u)
      then (guarded env u g r' FloodWarnNotice "auto_warn_flood"
              (ReasonText "Flooding detected") "flood" "flooding" w1).2
      else w1)).
Proof.
  intros He Ht n r' w1.
  assert (floods env g r u = bool_decide (anti_flood_limit g < n)) as Hfl.
  { unfold floods. by rewrite He, Ht. }
  assert (counted_row env g u r = r') as Hrow.
  { unfold counted_row. by rewrite He, Ht. }
  split; [|split].
  - rewrite Hfl. apply bool_decide_eq_true.
  - intros Hn. rewrite anti_flood_quiet by (rewrite Hfl; by apply bool_decide_eq_false_2).
    by rewrite He, Ht, Hrow.
  - intros Hn. destruct (is_bot_admin env (chat_id u)) eqn:Hb.
    + rewrite anti_flood_flood; [by rewrite Hrow| |done].
      rewrite Hfl. by apply bool_decide_eq_true_2.
    + unfold anti_flood. rewrite He, Ht, Hb. cbn [andb].
      change (set_flood (Some (utcnow env)) (flood_count env g r) r) with r'.
      change (message_count_in_interval r') with n.
      rewrite bool_decide_eq_true_2 by done. reflexivity.
Qed.

Lemma C3_flood_counter_witness :
  anti_flood_enabled Scenario.two_in_ten = true
  ∧ Text.truthy (text (Scenario.text_message Scenario.member 3 "three")) = true
  ∧ anti_flood (Scenario.env_at (Scenario.seconds 12))
      (Scenario.text_message Scenario.member 3 "three") Scenario.two_in_ten
      (set_flood (Some (Scenario.seconds 6)) 2 new_GroupUser) Scenario.quiet_group
    = (Returned,
       (guarded (Scenario.env_at (Scenario.seconds 12))
          (Scenario.text_message Scenario.member 3 "three") Scenario.two_in_ten
          (set_flood (Some (Scenario.seconds 12)) 3 new_GroupUser)
          FloodWarnNotice "auto_warn_flood" (ReasonText "Flooding detected")
          "flood" "flooding"
          (with_row Scenario.chat Scenario.member
             (set_flood (Some (Scenario.seconds 12)) 3 new_GroupUser)
             Scenario.quiet_group)).2).
Proof.
  split; [reflexivity|]. split; [reflexivity|].
  pose proof (C3_flood_counter (Scenario.env_at (Scenario.seconds 12))
                (Scenario.text_message Scenario.member 3 "three") Scenario.two_in_ten
                (set_flood (Some (Scenario.seconds 6)) 2 new_GroupUser)
                Scenario.quiet_group eq_refl eq_refl) as (_ & _ & H).
  apply H. vm_compute. reflexivity.
Defined.

(** C3 as stated fails: the counter is no fixed window.  With at most two
    messages in ten seconds, three messages six seconds apart never put
    three messages into one window of ten seconds, and the counter the
    claim describes accepts all three; the pipeline moves the stored time
    with every message, counts the third as the third of a burst, deletes
    it and warns the sender. *)
Lemma C3_counterexample_not_a_fixed_window :
  spec_fixed_window_verdicts 2 10 (mkWindow None 0)
    [Scenario.seconds 0; Scenario.seconds 6; Scenario.seconds 12]
  = [false; false; false]
  ∧ flood_verdicts Scenario.every_six_seconds Scenario.quiet_group
    = [false; false; true]
  ∧ calls (run (prod_map id Message <$> Scenario.every_six_seconds) Scenario.quiet_group)
    = [(SendMessage Scenario.chat (FloodWarnNotice 1), Done);
       (DeleteMessage Scenario.chat 3, Done)].
Proof. repeat split; vm_compute; reflexivity. Qed.

(** ** A mute that is over *)

Lemma pipeline_enters env u w :
  enters_pipeline env u ->
  handle_all_messages env u w =
  def (try_except
         (group_user ← muted_user_check env u
                         (actor_state (db w) (chat_id u) (sender_id u));
          evaluate_rules env u (policy (db w) (chat_id u)) group_user)
         (except_Exception log))
      (provisioned u w).
Proof.
  intros (Hb & Ha & Hn & Hl).
  unfold handle_all_messages, handle_all_messages_with, system_message_cleanup.
  rewrite Hn, Hl, Ha. rewrite bool_decide_eq_false_2 by done.
  unfold def, try_except, when. unfold mbind at 1 2 3 4, M_bind at 1 2 3 4.
  unfold mret at 1 2, M_ret at 1 2. cbn.
  rewrite get_or_create_group_eq, get_or_create_group_user_eq. reflexivity.
Qed.

Section Expired.

Context (env : Env) (u : Update) (r : GroupUser) (t : Z) (w : World).

Hypothesis muted : is_muted r = true.
Hypothesis until : mute_until r = Some t.
Hypothesis over : t < utcnow env.

Let r' := if is_bot_admin env (chat_id u) then set_mute false None r else r.

Ltac run_expired :=
  subst r'; unfold muted_user_check, count; rewrite muted, until;
  rewrite (bool_decide_eq_true_2 _ over); unfold_m.

Lemma expired_result :
  muted_user_check env u r w = (Normal r', (muted_user_check env u r w).2).
Proof. run_expired. destruct (is_bot_admin _ _); cases; reflexivity. Qed.

Lemma expired_row :
  is_bot_admin env (chat_id u) = true ->
  group_users (db (muted_user_check env u r w).2)
  = <[(chat_id u, sender_id u) := set_mute false None r]> (group_users (db w)).
Proof.
  run_expired. intros ->. cases; cbn; rewrite ?insert_insert_eq; reflexivity.
Qed.

Lemma expired_unmute_call :
  is_bot_admin env (chat_id u) = true ->
  (unmute_call (chat_id u) (sender_id u),
   api env (unmute_call (chat_id u) (sender_id u)))
  ∈ calls (muted_user_check env u r w).2.
Proof.
  run_expired. intros ->.
  destruct (api env (unmute_call _ _)) as [|k] eqn:E; cbn;
    cases; cbn; repeat constructor.
Qed.

Lemma expired_not_admin :
  is_bot_admin env (chat_id u) = false -> (muted_user_check env u r w).2 = w.
Proof. run_expired. by intros ->. Qed.

Lemma expired_no_delete :
  count is_delete (muted_user_check env u r w).2 = count is_delete w.
Proof. run_expired. destruct (is_bot_admin _ _); cases; reflexivity. Qed.

End Expired.

(** C7, as the code has it.  A message of a sender whose row is marked
    muted with a [mute_until] in the past is not deleted as a muted
    sender's message: it goes on to the rules of 6.3 to 6.5.  When the bot
    is an administrator of the group, the unrestrict call is made first and
    the row's [is_muted] and [mute_until] are cleared, whether the call
    succeeds or not, and the rules see the cleared row; when it is not, no
    call is made, the row stays marked as muted, and the rules see it so. *)
Theorem C7_expired_mute env u w r t :
  enters_pipeline env u ->
  group_users (db w) !! (chat_id u, sender_id u) = Some r ->
  is_muted r = true -> mute_until r = Some t -> t < utcnow env ->
  let r' := if is_bot_admin env (chat_id u) then set_mute false None r else r in
  handle_all_messages env u w =
    def (try_except (evaluate_rules env u (policy (db w) (chat_id u)) r')
           (except_Exception log))
        (reconciled env u w)
  ∧ group_users (db (reconciled env u w)) !! (chat_id u, sender_id u) = Some r'
  ∧ count is_delete (reconciled env u w) = count is_delete w
  ∧ (is_bot_admin env (chat_id u) = true ->
     (unmute_call (chat_id u) (sender_id u),
      api env (unmute_call (chat_id u) (sender_id u)))
     ∈ calls (reconciled env u w))
  ∧ (is_bot_admin env (chat_id u) = false -> calls (reconciled env u w) = calls w).
Proof.
  intros He Hrow Hm Hu Ht r'.
  assert (actor_state (db w) (chat_id u) (sender_id u) = r) as Hr.
  { unfold actor_state. by rewrite Hrow. }
  unfold reconciled. rewrite Hr.
  pose proof (expired_result env u r t (provisioned u w) Hm Hu Ht) as Hres.
  split; [|split; [|split; [|split]]].
  - rewrite (pipeline_enters _ _ _ He), Hr.
    unfold def, try_except. unfold mbind at 1, M_bind at 1. by rewrite Hres.
  - subst r'. destruct (is_bot_admin env (chat_id u)) eqn:Hb.
    + rewrite (expired_row env u r t _ Hm Hu Ht Hb). apply lookup_insert_eq.
    + rewrite (expired_not_admin env u r t _ Hm Hu Ht Hb). cbn.
      rewrite Hr. apply lookup_insert_eq.
  - by rewrite (expired_no_delete env u r t _ Hm Hu Ht).
  - intros Hb. by apply (expired_unmute_call env u r t).
  - intros Hb. by rewrite (expired_not_admin env u r t _ Hm Hu Ht Hb).
Qed.

Lemma C7_expired_mute_witness :
  enters_pipeline (Scenario.env_at (Scenario.seconds 10))
    (Scenario.text_message Scenario.member 1 "hello")
  ∧ group_users (db (reconciled (Scenario.env_at (Scenario.seconds 10))
                       (Scenario.text_message Scenario.member 1 "hello")
                       Scenario.mute_over))
    !! (Scenario.chat, Scenario.member)
    = Some new_GroupUser.
Proof.
  assert (enters_pipeline (Scenario.env_at (Scenario.seconds 10))
            (Scenario.text_message Scenario.member 1 "hello")) as He.
  { unfold enters_pipeline. repeat split; done. }
  split; [exact He|].
  pose proof (C7_expired_mute (Scenario.env_at (Scenario.seconds 10))
                (Scenario.text_message Scenario.member 1 "hello")
                Scenario.mute_over (Scenario.muted_row (Some (Scenario.seconds 5)))
                (Scenario.seconds 5) He eq_refl eq_refl eq_refl eq_refl)
    as (_ & Hrow & _).
  exact Hrow.
Defined.

(** C7 as stated fails when the bot is not an administrator of the group:
    the mute of the sender ended five seconds ago, yet no unrestrict call
    is made and the row is still marked as muted after the message, with
    its flood counter updated by the rules. *)
Lemma C7_counterexample_bot_not_admin :
  calls (step (Scenario.env_not_admin (Scenario.seconds 10))
           (Message (Scenario.text_message Scenario.member 1 "hello"))
           Scenario.mute_over)
  = []
  ∧ group_users
      (db (step (Scenario.env_not_admin (Scenario.seconds 10))
             (Message (Scenario.text_message Scenario.member 1 "hello"))
             Scenario.mute_over))
    !! (Scenario.chat, Scenario.member)
    = Some (set_flood (Some (Scenario.seconds 10)) 1
              (Scenario.muted_row (Some (Scenario.seconds 5)))).
Proof. split; vm_compute; reflexivity. Qed.

(** ** Rows that break the invariants of the specification *)

(** A sender marked as muted without [mute_until]: the message is deleted
    as a muted sender's message and nothing else happens. *)
Lemma muted_without_until env u w r :
  enters_pipeline env u ->
  group_users (db w) !! (chat_id u, sender_id u) = Some r ->
  is_muted r = true -> mute_until r = None ->
  is_bot_admin env (chat_id u) = true ->
  step env (Message u) w =
  {| db := provision (chat_id u) (sender_id u) (db w);
     calls := (DeleteMessage (chat_id u) (message_id u),
               api env (DeleteMessage (chat_id u) (message_id u))) :: calls w |}.
Proof.
  intros He Hrow Hm Hu Hb. unfold step, handle.
  assert (actor_state (db w) (chat_id u) (sender_id u) = r) as Hr.
  { unfold actor_state. by rewrite Hrow. }
  rewrite (pipeline_enters _ _ _ He), Hr, def_world.
  unfold muted_user_check. rewrite Hm, Hu, Hb. unfold_m. cbn.
  by destruct (api env (DeleteMessage _ _)).
Qed.

(** [unwarn_command] only touches the row of its target, and only takes a
    warn away from a positive count. *)
Lemma unwarn_command_rows env c w g a :
  group_users (db (unwarn_command env c w).2) !! (g, a) = group_users (db w) !! (g, a)
  ∨ ∃ r, group_users (db w) !! (g, a) = Some r ∧ 0 < warns r
         ∧ group_users (db (unwarn_command env c w).2) !! (g, a)
           = Some (set_warns (warns r - 1) r).
Proof.
  unfold unwarn_command, extract_target_user_id, require_target,
    get_user_info_from_telegram, get_or_create_user.
  unfold_m.
  destruct (cmd_reply_to c) as [t|]; [|destruct (cmd_arg_id c) as [t|]]; cbn.
  3: { destruct (api env (SendMessage _ _)); cbn; by left. }
  all: case_bool_decide; cbn; [by left|].
  all: destruct (user_info env t); cbn; [|destruct (api env (SendMessage _ _)); cbn; by left].
  all: destruct (group_users (db w) !! (cmd_chat_id c, t)) as [r|] eqn:Hrow; cbn;
    [|destruct (api env (SendMessage _ _)); cbn; by left].
  all: case_bool_decide; cbn; [|destruct (api env (SendMessage _ _)); cbn; by left].
  all: destruct (decide ((cmd_chat_id c, t) = (g, a))) as [[= <- <-]|Hne].
  all: try (right; exists r; split; [done|]; split; [done|];
            destruct (api env (SendMessage _ _)); cbn; apply lookup_insert_eq).
  all: left; destruct (api env (SendMessage _ _)); cbn; by apply lookup_insert_ne.
Qed.

(** C9, as the code has it.  The stored row is used as it is; nothing is
    clamped.  A row marked as muted without [mute_until] is a mute without
    end: the sender's message is deleted and the row stays.  A warn adds
    one to the stored count whatever its sign.  The one guard on the count
    is in [/unwarn], which takes a warn away only from a positive count, so
    that command never makes a count negative. *)
Theorem C9_rows_used_as_stored :
  (∀ env u w r,
     enters_pipeline env u ->
     group_users (db w) !! (chat_id u, sender_id u) = Some r ->
     is_muted r = true -> mute_until r = None ->
     is_bot_admin env (chat_id u) = true ->
     (DeleteMessage (chat_id u) (message_id u),
      api env (DeleteMessage (chat_id u) (message_id u)))
     ∈ calls (step env (Message u) w)
     ∧ group_users (db (step env (Message u) w)) !! (chat_id u, sender_id u) = Some r)
  ∧ (∀ env ev w g a,
       warns_actor env (db w) ev g a ->
       decision (policy (db w) g) (warns (actor_state (db w) g a) + 1) = Warn ->
       warns (actor_state (db (step env ev w)) g a)
       = warns (actor_state (db w) g a) + 1)
  ∧ (∀ env c w g a,
       0 ≤ warns (actor_state (db w) g a) ->
       0 ≤ warns (actor_state (db (unwarn_command env c w).2) g a)).
Proof.
  split; [|split].
  - intros env u w r He Hrow Hm Hu Hb.
    rewrite (muted_without_until _ _ _ _ He Hrow Hm Hu Hb). cbn. split.
    + constructor.
    + unfold actor_state. rewrite Hrow. apply lookup_insert_eq.
  - apply warning_event_row.
  - intros env c w g a H0. unfold actor_state in *.
    destruct (unwarn_command_rows env c w g a) as [->|(r & Hr & Hpos & ->)]; [done|].
    cbn. lia.
Qed.

Lemma C9_rows_used_as_stored_witness :
  enters_pipeline Scenario.env (Scenario.text_message Scenario.member 1 "hello")
  ∧ group_users
      (db (step Scenario.env (Message (Scenario.text_message Scenario.member 1 "hello"))
             Scenario.muted_for_good))
    !! (Scenario.chat, Scenario.member)
    = Some (Scenario.muted_row None).
Proof.
  assert (enters_pipeline Scenario.env (Scenario.text_message Scenario.member 1 "hello")) as He.
  { unfold enters_pipeline. repeat split; done. }
  split; [exact He|].
  exact (proj2 (proj1 C9_rows_used_as_stored Scenario.env
                  (Scenario.text_message Scenario.member 1 "hello")
                  Scenario.muted_for_good (Scenario.muted_row None)
                  He eq_refl eq_refl eq_refl eq_refl)).
Defined.

(** C9 as stated fails on both of its examples.  A row marked as muted
    without [mute_until] is not reset: the sender's message is deleted
    because of the mark, and the mark stays.  A count of [-3] is not reset
    to 0: a forbidden word makes it [-2], and the message that would be
    the sender's third warn from 0 is no reason to mute. *)
Lemma C9_counterexample_no_clamp :
  calls (step Scenario.env (Message (Scenario.text_message Scenario.member 1 "hello"))
           Scenario.muted_for_good)
  = [(DeleteMessage Scenario.chat 1, Done)]
  ∧ group_users
      (db (step Scenario.env (Message (Scenario.text_message Scenario.member 1 "hello"))
             Scenario.muted_for_good))
    !! (Scenario.chat, Scenario.member)
    = Some (Scenario.muted_row None)
  ∧ calls (step Scenario.env (Message (Scenario.text_message Scenario.member 1 "this is SPAM"))
             Scenario.negative_warns)
    = [(SendMessage Scenario.chat (WordWarnNotice "spam" (-2)), Done);
       (DeleteMessage Scenario.chat 1, Done)]
  ∧ warns (actor_state
             (db (step Scenario.env
                    (Message (Scenario.text_message Scenario.member 1 "this is SPAM"))
                    Scenario.negative_warns))
             Scenario.chat Scenario.member)
    = -2.
Proof. repeat split; vm_compute; reflexivity. Qed.

(** ** The sweep of expired mutes *)

Lemma unmute_expired_eq env g a r w :
  group_users (db w) !! (g, a) = Some r ->
  ∃ w', unmute_expired env ((g, a), r) w = (Normal tt, w')
        ∧ group_users (db w') = <[(g, a) := unmute_row env g a r]> (group_users (db w)).
Proof.
  intros Hrow. unfold unmute_expired, unmute_row. unfold_m.
  destruct (is_bot_admin env g); cbn.
  - destruct (api env (unmute_call g a)) as [|[|]]; cbn; eexists; (split; [reflexivity|]);
      cbn; first [reflexivity | by rewrite insert_id].
  - eexists. split; [reflexivity|]. by rewrite insert_id.
Qed.

Lemma sweep_loop env (l : list (Z * Z * GroupUser)) w :
  NoDup l.*1 ->
  (∀ k r, (k, r) ∈ l -> group_users (db w) !! k = Some r) ->
  ∃ w', for_each l (unmute_expired env) w = (Normal tt, w')
        ∧ ∀ k, group_users (db w') !! k =
               match (list_to_map l : gmap (Z * Z) GroupUser) !! k with
               | Some r => Some (unmute_row env k.1 k.2 r)
               | None => group_users (db w) !! k
               end.
Proof.
  revert w. induction l as [|[[g a] r] l IH]; intros w Hnd Hin.
  - exists w. split; [reflexivity|]. intros k.
    by rewrite list_to_map_nil, lookup_empty.
  - apply NoDup_cons in Hnd as [Hfresh Hnd].
    destruct (unmute_expired_eq env g a r w) as (w1 & Hone & Hrows).
    { apply Hin. constructor. }
    destruct (IH w1 Hnd) as (w' & Hloop & Hlook).
    { intros k r0 Hk. rewrite Hrows, lookup_insert_ne.
      - apply Hin. by constructor.
      - intros <-. apply Hfresh. apply list_elem_of_fmap. by exists ((g, a), r0). }
    exists w'. split.
    + cbn [for_each]. by erewrite bind_Normal by apply Hone.
    + intros k. rewrite Hlook, list_to_map_cons.
      destruct (decide (k = (g, a))) as [->|Hne].
      * rewrite lookup_insert_eq, (not_elem_of_list_to_map_1 _ _ Hfresh).
        by rewrite Hrows, lookup_insert_eq.
      * rewrite lookup_insert_ne by done.
        destruct (list_to_map l !! k); [done|].
        by rewrite Hrows, lookup_insert_ne.
Qed.

(** The job rewrites every row by [swept_row] and touches no other. *)
Lemma check_expired_mutes_rows env w k :
  group_users (db (step env ExpiredMutesJob w)) !! k
  = swept_row env k <$> group_users (db w) !! k.
Proof.
  unfold step, handle, check_expired_mutes. rewrite def_world.
  erewrite bind_Normal by reflexivity.
  set (l := filter _ _).
  assert (NoDup l.*1) as Hnd.
  { apply (sublist_NoDup _ (map_to_list (group_users (db w))).*1);
      [apply NoDup_fst_map_to_list|].
    apply fmap_sublist, sublist_filter. }
  assert (∀ k r, (k, r) ∈ l ↔
                 mute_expired (utcnow env) r = true ∧ group_users (db w) !! k = Some r)
    as Hl.
  { intros k0 r. subst l. rewrite list_elem_of_filter, elem_of_map_to_list. cbn.
    by rewrite Is_true_true. }
  destruct (sweep_loop env l w Hnd) as (w' & -> & Hlook).
  { intros k0 r Hk. by apply Hl. }
  cbn. rewrite Hlook. unfold swept_row.
  destruct (list_to_map l !! k) as [r|] eqn:Hk.
  - apply elem_of_list_to_map in Hk; [|done]. apply Hl in Hk as [He ->].
    cbn. by rewrite He.
  - destruct (group_users (db w) !! k) as [r|] eqn:Hrow; [|done]. cbn.
    destruct (mute_expired (utcnow env) r) eqn:He; [|done].
    assert ((k, r) ∈ l) as Hin by by apply Hl.
    apply elem_of_list_to_map in Hin; [|done]. congruence.
Qed.

Lemma swept_row_warns env k r : warns (swept_row env k r) = warns r.
Proof.
  unfold swept_row, unmute_row.
  destruct (mute_expired _ _); [|done].
  destruct (is_bot_admin _ _); [|done]. by destruct (api _ _) as [|[|]].
Qed.

Lemma sweeps_keep_warns envs w g a :
  warns (actor_state (db (run (sweeps envs) w)) g a) = warns (actor_state (db w) g a).
Proof.
  revert w. induction envs as [|env envs IH]; intros w; [done|].
  cbn [sweeps fmap list_fmap run]. fold (sweeps envs). rewrite IH.
  unfold actor_state. rewrite check_expired_mutes_rows.
  destruct (group_users (db w) !! (g, a)); [|done]. cbn. apply swept_row_warns.
Qed.

Lemma unmute_expired_calls env g a r w :
  ∃ w', unmute_expired env ((g, a), r) w = (Normal tt, w')
        ∧ (∀ x, x ∈ calls w -> x ∈ calls w')
        ∧ (is_bot_admin env g = true ->
           (unmute_call g a, api env (unmute_call g a)) ∈ calls w').
Proof.
  unfold unmute_expired. unfold_m.
  destruct (is_bot_admin env g); cbn.
  - destruct (api env (unmute_call g a)) as [|[|]] eqn:E; cbn; eexists;
      (split; [reflexivity|]); cbn; (split; [intros x Hx|intros _]);
      by constructor.
  - eexists. split; [reflexivity|]. split; [done|discriminate].
Qed.

Lemma sweep_loop_calls env (l : list (Z * Z * GroupUser)) w :
  ∃ w', for_each l (unmute_expired env) w = (Normal tt, w')
        ∧ (∀ x, x ∈ calls w -> x ∈ calls w')
        ∧ ∀ g a r, ((g, a), r) ∈ l -> is_bot_admin env g = true ->
            (unmute_call g a, api env (unmute_call g a)) ∈ calls w'.
Proof.
  revert w. induction l as [|[[g a] r] l IH]; intros w.
  - exists w. split; [reflexivity|]. split; [done|]. intros g a r Hin. by inv Hin.
  - destruct (unmute_expired_calls env g a r w) as (w1 & Hone & Hkeep1 & Hcall).
    destruct (IH w1) as (w' & Hloop & Hkeep & Hcalls).
    exists w'. split; [|split].
    + cbn [for_each]. by erewrite bind_Normal by apply Hone.
    + auto.
    + intros g' a' r' Hin Hb. apply elem_of_cons in Hin as [[= -> -> ->]|Hin].
      * auto.
      * eauto.
Qed.

(** A sweep calls for every expired mute in a group the bot administers. *)
Lemma sweep_attempts env w g a r :
  group_users (db w) !! (g, a) = Some r ->
  mute_expired (utcnow env) r = true ->
  is_bot_admin env g = true ->
  (unmute_call g a, api env (unmute_call g a)) ∈ calls (step env ExpiredMutesJob w).
Proof.
  intros Hrow He Hb. unfold step, handle, check_expired_mutes. rewrite def_world.
  erewrite bind_Normal by reflexivity.
  destruct (sweep_loop_calls env
              (filter (λ row, mute_expired (utcnow env) row.2)
                 (map_to_list (group_users (db w)))) w)
    as (w' & -> & _ & Hcalls).
  cbn. apply (Hcalls g a r); [|done].
  apply list_elem_of_filter. split; [cbn; by rewrite He|].
  by apply elem_of_map_to_list.
Qed.

Lemma mute_expired_later t t' r :
  mute_expired t r = true -> t ≤ t' -> mute_expired t' r = true.
Proof.
  unfold mute_expired. destruct (is_muted r); [|done]. cbn.
  destruct (mute_until r); [|done]. intros H Ht.
  apply bool_decide_eq_true in H. apply bool_decide_eq_true. lia.
Qed.

(** C8, as the code has it.  For a row whose mute is over and a bot that is
    an administrator of the group: when the unrestrict call fails with
    [BadRequest] the row's mute fields are cleared as after a success, and
    no later sweep tries again; when it fails with another error the row is
    left as it is, muted, and the next sweep makes the call again.  When
    the bot is no administrator the row is left as it is without a call.
    No number of sweeps changes a warn count. *)
Theorem C8_sweep_of_expired_mute env w g a r :
  group_users (db w) !! (g, a) = Some r ->
  mute_expired (utcnow env) r = true ->
  group_users (db (step env ExpiredMutesJob w)) !! (g, a) =
    Some (if is_bot_admin env g then
            match api env (unmute_call g a) with
            | Fails OtherError => r
            | Fails BadRequest | Done => set_mute false None r
            end
          else r)
  ∧ (is_bot_admin env g = true ->
     api env (unmute_call g a) = Fails OtherError ->
     ∀ env', utcnow env ≤ utcnow env' -> is_bot_admin env' g = true ->
       (unmute_call g a, api env' (unmute_call g a))
       ∈ calls (step env' ExpiredMutesJob (step env ExpiredMutesJob w)))
  ∧ ∀ envs g' a',
      warns (actor_state (db (run (sweeps envs) w)) g' a')
      = warns (actor_state (db w) g' a').
Proof.
  intros Hrow He.
  assert (group_users (db (step env ExpiredMutesJob w)) !! (g, a) =
          Some (if is_bot_admin env g then
                  match api env (unmute_call g a) with
                  | Fails OtherError => r
                  | Fails BadRequest | Done => set_mute false None r
                  end
                else r)) as Hafter.
  { rewrite check_expired_mutes_rows, Hrow. cbn.
    unfold swept_row, unmute_row. rewrite He. cbn.
    destruct (is_bot_admin env g); [|done]. by destruct (api _ _) as [|[|]]. }
  split; [exact Hafter|]. split; [|intros; apply sweeps_keep_warns].
  intros Hb Hk env' Ht Hb'. rewrite Hb, Hk in Hafter.
  apply (sweep_attempts env' _ g a r Hafter); [|done].
  by apply (mute_expired_later (utcnow env)).
Qed.

Lemma C8_sweep_of_expired_mute_witness :
  mute_expired (utcnow (Scenario.env_restrict_fails OtherError (Scenario.seconds 10)))
    (Scenario.muted_row (Some (Scenario.seconds 5))) = true
  ∧ group_users
      (db (step (Scenario.env_restrict_fails OtherError (Scenario.seconds 10))
             ExpiredMutesJob Scenario.mute_over))
    !! (Scenario.chat, Scenario.member)
    = Some (Scenario.muted_row (Some (Scenario.seconds 5))).
Proof.
  split; [reflexivity|].
  exact (proj1 (C8_sweep_of_expired_mute
                  (Scenario.env_restrict_fails OtherError (Scenario.seconds 10))
                  Scenario.mute_over Scenario.chat Scenario.member
                  (Scenario.muted_row (Some (Scenario.seconds 5)))
                  eq_refl eq_refl)).
Defined.

(** C8 as stated fails when the unrestrict call is answered by
    [BadRequest]: the sweep clears the mute fields although the call
    failed, and the next sweep, five minutes later, makes no call: the
    unrestrict is not tried again. *)
Lemma C8_counterexample_bad_request_clears :
  group_users
    (db (step (Scenario.env_gone Scenario.member (Scenario.seconds 10))
           ExpiredMutesJob Scenario.mute_over))
  !! (Scenario.chat, Scenario.member)
  = Some new_GroupUser
  ∧ calls (run (sweeps [Scenario.env_gone Scenario.member (Scenario.seconds 10);
                        Scenario.env_gone Scenario.member (Scenario.seconds 310)])
             Scenario.mute_over)
    = [(unmute_call Scenario.chat Scenario.member, Fails BadRequest)].
Proof. split; vm_compute; reflexivity. Qed.
